(** * Social Media Downloader API: a shallow embedding of [api/main.py]

    The service exposes [POST /api/download]: it detects the platform of a
    URL ([detect_platform]), looks the platform's handler up in
    [PLATFORM_HANDLERS] and returns the handler's placeholder payload.

    Python strings are [string]s, dictionaries are association lists in
    insertion order, exceptions are values of [exn], and the coroutines run
    in a small state-and-exception monad whose state is the logger's
    output.  The [slowapi] decorator [@limiter.limit("60/minute")] wraps the
    endpoint from outside and lives in a third-party package; module
    [Limiter] models it from the package's documented behaviour. *)

From Stdlib Require Import ZArith List Bool Ascii String Lia Permutation.
Import ListNotations.
Open Scope string_scope.

(** ** Python string operations *)

Module Str.

(** [needle in hay] *)
Fixpoint contains (needle hay : string) : bool :=
  prefix needle hay ||
  match hay with
  | EmptyString => false
  | String _ rest => contains needle rest
  end.

(** [c in chars], for a one-character [c] *)
Fixpoint mem_char (c : ascii) (chars : string) : bool :=
  match chars with
  | EmptyString => false
  | String d rest => Ascii.eqb c d || mem_char c rest
  end.

Fixpoint forallb (p : ascii -> bool) (s : string) : bool :=
  match s with
  | EmptyString => true
  | String c rest => p c && forallb p rest
  end.

Fixpoint filter (p : ascii -> bool) (s : string) : string :=
  match s with
  | EmptyString => EmptyString
  | String c rest => if p c then String c (filter p rest) else filter p rest
  end.

Definition is_upper (c : ascii) : bool :=
  (65 <=? nat_of_ascii c)%nat && (nat_of_ascii c <=? 90)%nat.

Definition is_lower (c : ascii) : bool :=
  (97 <=? nat_of_ascii c)%nat && (nat_of_ascii c <=? 122)%nat.

Definition lower_char (c : ascii) : ascii :=
  if is_upper c then ascii_of_nat (nat_of_ascii c + 32) else c.

Definition upper_char (c : ascii) : ascii :=
  if is_lower c then ascii_of_nat (nat_of_ascii c - 32) else c.

(** [s.lower()], on ASCII text.  Outside ASCII Python lowers more
    characters, none of them to a letter of [mp3] or [mp4]. *)
Fixpoint lower (s : string) : string :=
  match s with
  | EmptyString => EmptyString
  | String c rest => String (lower_char c) (lower rest)
  end.

(** [s.capitalize()] *)
Definition capitalize (s : string) : string :=
  match s with
  | EmptyString => EmptyString
  | String c rest => String (upper_char c) (lower rest)
  end.

(** [x in xs] for a list of strings *)
Definition mem (x : string) (xs : list string) : bool :=
  existsb (String.eqb x) xs.

End Str.

(** ** Regular expressions of the shape [(lit1|lit2|...)]

    Every pattern of [PLATFORM_PATTERNS] is one group of alternatives made of
    ordinary characters and escaped dots, so a pattern is the list of its
    literal alternatives and [pattern.search(s)] is truthy exactly when one
    of them occurs somewhere in [s]. *)

Definition regex := list string.

Definition re_search (pattern : regex) (s : string) : bool :=
  existsb (fun lit => Str.contains lit s) pattern.

(** ** Values, exceptions and the coroutine monad *)

Inductive value :=
| VStr (s : string)
| VNone
| VList (items : list string).

Definition dict := list (string * value).

Definition keys (d : dict) : list string := map fst d.

Fixpoint dict_get {A : Type} (k : string) (d : list (string * A)) : option A :=
  match d with
  | [] => None
  | (k', v) :: rest => if String.eqb k k' then Some v else dict_get k rest
  end.

(** Exceptions.  The text [f"Error processing request: {str(e)}"] is kept
    structured as [ErrorProcessingRequest e]: how [str] renders an
    [HTTPException] depends on the installed Starlette. *)
Inductive exn :=
| HTTPException (status_code : Z) (detail : text)
| ValueError (msg : string)
| AttributeError (msg : string)
with text :=
| Lit (s : string)
| ErrorProcessingRequest (cause : exn).

Inductive level := INFO | ERROR.

Definition log := list (level * text).

Inductive res (A : Type) :=
| Ok (a : A)
| Raise (e : exn).
Arguments Ok {A} a.
Arguments Raise {A} e.

Definition M (A : Type) : Type := log -> res A * log.

Definition ret {A} (a : A) : M A := fun st => (Ok a, st).

Definition raise {A} (e : exn) : M A := fun st => (Raise e, st).

Definition bind {A B} (m : M A) (k : A -> M B) : M B :=
  fun st =>
    match m st with
    | (Ok a, st') => k a st'
    | (Raise e, st') => (Raise e, st')
    end.

(** [try: m  except <filter> as e: h e]; [catches e = false] lets [e] pass. *)
Definition try_except {A} (m : M A) (catches : exn -> bool) (h : exn -> M A) : M A :=
  fun st =>
    match m st with
    | (Ok a, st') => (Ok a, st')
    | (Raise e, st') => if catches e then h e st' else (Raise e, st')
    end.

Definition lift {A} (r : res A) : M A := fun st => (r, st).

Definition logger_info (msg : string) : M unit :=
  fun st => (Ok tt, (st ++ [(INFO, Lit msg)])%list).

Definition logger_error (msg : text) : M unit :=
  fun st => (Ok tt, (st ++ [(ERROR, msg)])%list).

Notation "x <- m ;; k" := (bind m (fun x => k))
  (at level 61, m at next level, right associativity).
Notation "m ;;; k" := (bind m (fun _ => k))
  (at level 61, right associativity).

(** [except ValueError] and [except Exception] *)
Definition is_ValueError (e : exn) : bool :=
  match e with ValueError _ => true | _ => false end.

Definition is_Exception (e : exn) : bool := true.

(** ** [urllib.parse.urlparse], as far as [netloc] goes

    After CPython 3.11.  [urlsplit] strips leading C0 controls and spaces,
    deletes tab, CR and LF, splits a leading scheme off at the first colon,
    and when what follows starts with two slashes takes as [netloc]
    everything up to the first of [/], [?] and [#].  It raises [ValueError]
    for a netloc with an unmatched square bracket, for a bracketed host
    that is no IPv6 or IPvFuture literal ([_check_bracketed_netloc], with
    the address grammar of [ipaddress]) and for a netloc holding a character
    whose NFKC form contains one of [/?#@:] ([_checknetloc]).

    Strings stand for their UTF-8 bytes.  Two points are approximate outside
    ASCII: [repr], used in one error message, keeps every non-ASCII byte as
    it is, and the NFKC table is that of Unicode 14. *)

Module Url.

Definition scheme_chars : string :=
  "abcdefghijklmnopqrstuvwxyzABCDEFGHIJKLMNOPQRSTUVWXYZ0123456789+-.".

Definition is_c0_or_space (c : ascii) : bool := (nat_of_ascii c <=? 32)%nat.

Definition is_unsafe (c : ascii) : bool :=
  Str.mem_char c (String "009" (String "013" (String "010" EmptyString))).

Definition is_delim (c : ascii) : bool := Str.mem_char c "/?#".

Fixpoint lstrip (s : string) : string :=
  match s with
  | EmptyString => EmptyString
  | String c rest => if is_c0_or_space c then lstrip rest else s
  end.

(** [(url[:i], url[i+1:])] for [i = url.find(':')], when there is a colon *)
Fixpoint partition_colon (s : string) : option (string * string) :=
  match s with
  | EmptyString => None
  | String c rest =>
      if Ascii.eqb c ":" then Some (EmptyString, rest)
      else match partition_colon rest with
           | Some (pre, post) => Some (String c pre, post)
           | None => None
           end
  end.

Definition is_ascii_alpha (c : ascii) : bool := Str.is_upper c || Str.is_lower c.

(** the scheme and what follows it *)
Definition split_scheme (url : string) : string * string :=
  match partition_colon url with
  | Some (String c0 pre, post) =>
      if is_ascii_alpha c0
         && Str.forallb (fun c => Str.mem_char c scheme_chars) (String c0 pre)
      then (Str.lower (String c0 pre), post)
      else (EmptyString, url)
  | _ => (EmptyString, url)
  end.

(** [_splitnetloc(url, 2)] once the two slashes are gone *)
Fixpoint splitnetloc (s : string) : string * string :=
  match s with
  | EmptyString => (EmptyString, EmptyString)
  | String c rest =>
      if is_delim c then (EmptyString, s)
      else let (dom, tl) := splitnetloc rest in (String c dom, tl)
  end.

Definition brackets_ok (netloc : string) : bool :=
  Bool.eqb (Str.contains "[" netloc) (Str.contains "]" netloc).

Definition is_empty (s : string) : bool :=
  match s with EmptyString => true | _ => false end.

Definition is_ascii (c : ascii) : bool := (nat_of_ascii c <? 128)%nat.

Definition is_digit (c : ascii) : bool :=
  (48 <=? nat_of_ascii c)%nat && (nat_of_ascii c <=? 57)%nat.

(** membership in [_HEX_DIGITS] *)
Definition is_hex (c : ascii) : bool :=
  Str.mem_char c "0123456789ABCDEFabcdef".

(** [s.rpartition(c)[2]]: what follows the last [c], all of [s] without one *)
Fixpoint after_last (c : ascii) (s : string) : string :=
  match s with
  | EmptyString => EmptyString
  | String d rest =>
      if Str.mem_char c rest then after_last c rest
      else if Ascii.eqb d c then rest else s
  end.

(** [s.partition(c)]: the texts around the first [c], [None] without one *)
Fixpoint partition (c : ascii) (s : string) : option (string * string) :=
  match s with
  | EmptyString => None
  | String d rest =>
      if Ascii.eqb d c then Some (EmptyString, rest)
      else match partition c rest with
           | Some (pre, post) => Some (String d pre, post)
           | None => None
           end
  end.

(** [s.split(c)] *)
Fixpoint split (c : ascii) (s : string) : list string :=
  match s with
  | EmptyString => [EmptyString]
  | String d rest =>
      if Ascii.eqb d c then EmptyString :: split c rest
      else match split c rest with
           | x :: xs => String d x :: xs
           | [] => [String d EmptyString]
           end
  end.

(** [int(s, 10)] on decimal digits *)
Definition decimal (s : string) : nat :=
  (fix go (acc : nat) (s : string) : nat :=
     match s with
     | EmptyString => acc
     | String c rest => go (10 * acc + (nat_of_ascii c - 48))%nat rest
     end) 0%nat s.

(** [IPv4Address._parse_octet] succeeds *)
Definition parse_octet_ok (octet_str : string) : bool :=
  if is_empty octet_str then false
  else if negb (Str.forallb is_digit octet_str) then false
  else if (3 <? String.length octet_str)%nat then false
  else if negb (String.eqb octet_str "0") && prefix "0" octet_str then false
  else (decimal octet_str <=? 255)%nat.

(** [IPv4Address(s)] succeeds *)
Definition ipv4_ok (s : string) : bool :=
  negb (Str.contains "/" s)
  && negb (is_empty s)
  && match split "." s with
     | [a; b; c; d] =>
         parse_octet_ok a && parse_octet_ok b && parse_octet_ok c && parse_octet_ok d
     | _ => false
     end.

(** [IPv6Address._parse_hextet] succeeds *)
Definition parse_hextet_ok (hextet_str : string) : bool :=
  Str.forallb is_hex hextet_str
  && (String.length hextet_str <=? 4)%nat
  && negb (is_empty hextet_str).

(** [_split_scope_id]: the address before [%scope], [None] on a bad scope *)
Definition split_scope_id (ip_str : string) : option string :=
  match partition "%" ip_str with
  | None => Some ip_str
  | Some (addr, scope_id) =>
      if is_empty scope_id || Str.contains "%" scope_id then None else Some addr
  end.

(** [IPv6Address._ip_int_from_string] succeeds.  An IPv4-style last part is
    replaced by two hextets; only their being well formed matters here. *)
Definition ipv6_int_ok (ip_str : string) : bool :=
  if is_empty ip_str then false
  else
    let parts := split ":" ip_str in
    if (List.length parts <? 3)%nat then false
    else
      let converted :=
        if Str.contains "." (List.last parts EmptyString)
        then if ipv4_ok (List.last parts EmptyString)
             then Some (List.removelast parts ++ ["0"; "0"])%list
             else None
        else Some parts in
      match converted with
      | None => false
      | Some parts =>
          let n := List.length parts in
          if (9 <? n)%nat then false
          else
            let first_empty := is_empty (List.nth 0 parts EmptyString) in
            let last_empty := is_empty (List.last parts EmptyString) in
            let bounds :=
              match List.filter (fun i => is_empty (List.nth i parts EmptyString))
                                (List.seq 1 (n - 2)) with
              | _ :: _ :: _ => None
              | [skip_index] =>
                  let parts_hi := if first_empty then (skip_index - 1)%nat else skip_index in
                  let parts_lo :=
                    if last_empty then (n - skip_index - 1 - 1)%nat
                    else (n - skip_index - 1)%nat in
                  if first_empty && negb (parts_hi =? 0)%nat then None
                  else if last_empty && negb (parts_lo =? 0)%nat then None
                  else if (8 <=? parts_hi + parts_lo)%nat then None
                  else Some (parts_hi, parts_lo)
              | [] =>
                  if negb (n =? 8)%nat then None
                  else if first_empty then None
                  else if last_empty then None
                  else Some (n, 0%nat)
              end in
            match bounds with
            | None => false
            | Some (parts_hi, parts_lo) =>
                List.forallb parse_hextet_ok (List.firstn parts_hi parts)
                && List.forallb parse_hextet_ok (List.skipn (n - parts_lo) parts)
            end
      end.

(** [IPv6Address(s)] succeeds *)
Definition ipv6_ok (s : string) : bool :=
  negb (Str.contains "/" s)
  && match split_scope_id s with
     | Some addr => ipv6_int_ok addr
     | None => false
     end.

Definition hex_digit (n : nat) : ascii :=
  ascii_of_nat (if (n <? 10)%nat then 48 + n else 87 + n).

(** [repr(s)] of a string *)
Definition repr (s : string) : string :=
  let quote : ascii :=
    if Str.contains "'" s && negb (Str.contains (String "034" EmptyString) s)
    then "034"%char else "'"%char in
  let escape (c : ascii) : string :=
    if Ascii.eqb c quote || Ascii.eqb c "\" then String "\" (String c EmptyString)
    else if Ascii.eqb c "009" then "\t"
    else if Ascii.eqb c "010" then "\n"
    else if Ascii.eqb c "013" then "\r"
    else if (nat_of_ascii c <? 32)%nat || (nat_of_ascii c =? 127)%nat
    then String "\" (String "x" (String (hex_digit (nat_of_ascii c / 16))
                                   (String (hex_digit (nat_of_ascii c mod 16)) EmptyString)))
    else String c EmptyString in
  String quote
    ((fix go (s : string) : string :=
        match s with
        | EmptyString => String quote EmptyString
        | String c rest => escape c ++ go rest
        end) s).

(** [re.match(r"\Av[a-fA-F0-9]+\..+\Z", hostname)] *)
Definition ipvfuture_ok (hostname : string) : bool :=
  match hostname with
  | String "v" after_v =>
      (fix digits (seen : bool) (s : string) : bool :=
         match s with
         | EmptyString => false
         | String c rest =>
             if is_hex c then digits true rest
             else seen && Ascii.eqb c "."
                  && negb (is_empty rest)
                  && Str.forallb (fun d => negb (Ascii.eqb d "010")) rest
         end) false after_v
  | _ => false
  end.

Definition check_bracketed_host (hostname : string) : res unit :=
  if prefix "v" hostname
  then if ipvfuture_ok hostname then Ok tt
       else Raise (ValueError "IPvFuture address is invalid")
  else if ipv4_ok hostname
       then Raise (ValueError "An IPv4 address cannot be in brackets")
       else if ipv6_ok hostname then Ok tt
            else Raise (ValueError
                          (repr hostname ++ " does not appear to be an IPv4 or IPv6 address")).

Definition check_bracketed_netloc (netloc : string) : res unit :=
  let hostname_and_port := after_last "@" netloc in
  match partition "[" hostname_and_port with
  | Some (before_bracket, bracketed) =>
      if negb (is_empty before_bracket) then Raise (ValueError "Invalid IPv6 URL")
      else
        let (hostname, port) :=
          match partition "]" bracketed with
          | Some (hostname, port) => (hostname, port)
          | None => (bracketed, EmptyString)
          end in
        if negb (is_empty port) && negb (prefix ":" port)
        then Raise (ValueError "Invalid IPv6 URL")
        else check_bracketed_host hostname
  | None =>
      let hostname :=
        match partition ":" hostname_and_port with
        | Some (hostname, _) => hostname
        | None => hostname_and_port
        end in
      check_bracketed_host hostname
  end.

Definition utf8 (bytes : list nat) : string :=
  List.fold_right (fun n s => String (ascii_of_nat n) s) EmptyString bytes.

(** The characters whose NFKC form contains one of [/?#@:]: U+2047, U+2048,
    U+2049, U+2100, U+2101, U+2105, U+2106, U+2A74, U+FE13, U+FE16, U+FE55,
    U+FE56, U+FE5F, U+FE6B, U+FF03, U+FF0F, U+FF1A, U+FF1F and U+FF20. *)
Definition nfkc_delimiter_sources : list string :=
  map utf8
    [ [226; 129; 135]; [226; 129; 136]; [226; 129; 137];
      [226; 132; 128]; [226; 132; 129]; [226; 132; 133]; [226; 132; 134];
      [226; 169; 180];
      [239; 184; 147]; [239; 184; 150];
      [239; 185; 149]; [239; 185; 150]; [239; 185; 159]; [239; 185; 171];
      [239; 188; 131]; [239; 188; 143]; [239; 188; 154]; [239; 188; 159];
      [239; 188; 160] ].

Definition checknetloc (netloc : string) : res unit :=
  if is_empty netloc || Str.forallb is_ascii netloc then Ok tt
  else if existsb (fun seq => Str.contains seq netloc) nfkc_delimiter_sources
       then Raise (ValueError ("netloc '" ++ netloc
                               ++ "' contains invalid characters under NFKC normalization"))
       else Ok tt.

Record ParseResult := { scheme : string; netloc : string; rest : string }.

Definition urlparse (url : string) : res ParseResult :=
  let url := lstrip url in
  let url := Str.filter (fun c => negb (is_unsafe c)) url in
  let (sch, url) := split_scheme url in
  match url with
  | String "/" (String "/" after) =>
      let (dom, tl) := splitnetloc after in
      if negb (brackets_ok dom) then Raise (ValueError "Invalid IPv6 URL")
      else
        match (if Str.contains "[" dom && Str.contains "]" dom
               then check_bracketed_netloc dom else Ok tt) with
        | Raise e => Raise e
        | Ok _ =>
            match checknetloc dom with
            | Raise e => Raise e
            | Ok _ => Ok {| scheme := sch; netloc := dom; rest := tl |}
            end
        end
  | _ => Ok {| scheme := sch; netloc := EmptyString; rest := url |}
  end.

(** The shape [scheme://netloc tail]: a scheme, an ASCII netloc free of
    delimiters, of the deleted characters and of square brackets, and a tail
    that is empty or opens the path, the query or the fragment. *)
Definition is_scheme (s : string) : bool :=
  match s with
  | EmptyString => false
  | String c0 _ =>
      is_ascii_alpha c0 && Str.forallb (fun c => Str.mem_char c scheme_chars) s
  end.

Definition is_netloc (nl : string) : bool :=
  Str.forallb (fun c => negb (is_delim c) && negb (is_unsafe c)
                        && is_ascii c && negb (Str.mem_char c "[]")) nl.

Definition is_tail (tl : string) : bool :=
  match tl with
  | EmptyString => true
  | String c _ => is_delim c
  end.

End Url.

(** ** The request model *)

(** [url] holds [str(download_req.url)], the serialised [HttpUrl]; [format]
    is [None] when the body carries an explicit null. *)
Record DownloadRequest := { url : string; format : option string }.

(** ** Platform detector patterns *)

Definition PLATFORM_PATTERNS : list (string * regex) :=
  [ ("instagram", ["instagram.com"; "instagr.am"]);
    ("tiktok",    ["tiktok.com"; "vm.tiktok.com"]);
    ("facebook",  ["facebook.com"; "fb.com"; "fb.watch"]);
    ("youtube",   ["youtube.com"; "youtu.be"]) ].

(** ** Platform handlers *)

Definition instagram_content_type (url : string) : string :=
  if Str.contains "reel" url then "reel"
  else if Str.contains "p/" url then "post"
  else "story".

Definition instagram_handler (url format : string) : M dict :=
  logger_info ("Processing Instagram URL: " ++ url) ;;;
  let content_type := instagram_content_type url in
  ret [ ("status", VStr "success");
        ("platform", VStr "Instagram");
        ("media_type",
          VStr (if Str.mem content_type ["reel"; "story"] then "video" else "image"));
        ("download_url",
          VStr ("https://api.example.com/downloads/instagram/"
                ++ content_type ++ "_processed." ++ format));
        ("thumbnail", VStr "https://api.example.com/thumbnails/instagram_thumbnail.jpg");
        ("title", VStr ("Instagram " ++ Str.capitalize content_type));
        ("duration",
          if Str.mem content_type ["reel"; "story"] then VStr "15s" else VNone) ].

Definition tiktok_handler (url format : string) : M dict :=
  logger_info ("Processing TikTok URL: " ++ url) ;;;
  ret [ ("status", VStr "success");
        ("platform", VStr "TikTok");
        ("media_type", VStr "video");
        ("download_url",
          VStr ("https://api.example.com/downloads/tiktok/video_nowatermark." ++ format));
        ("thumbnail", VStr "https://api.example.com/thumbnails/tiktok_thumbnail.jpg");
        ("title", VStr "TikTok Video");
        ("duration", VStr "30s");
        ("audio_url",
          if String.eqb format "mp3"
          then VStr "https://api.example.com/downloads/tiktok/audio.mp3"
          else VNone) ].

Definition facebook_content_type (url : string) : string :=
  if Str.contains "reel" url then "reel"
  else if Str.contains "story" url then "story"
  else "post".

Definition facebook_handler (url format : string) : M dict :=
  logger_info ("Processing Facebook URL: " ++ url) ;;;
  let content_type := facebook_content_type url in
  ret [ ("status", VStr "success");
        ("platform", VStr "Facebook");
        ("media_type",
          VStr (if Str.mem content_type ["reel"; "story"] then "video" else "image"));
        ("download_url",
          VStr ("https://api.example.com/downloads/facebook/"
                ++ content_type ++ "." ++ format));
        ("thumbnail", VStr "https://api.example.com/thumbnails/facebook_thumbnail.jpg");
        ("title", VStr ("Facebook " ++ Str.capitalize content_type));
        ("duration",
          if Str.mem content_type ["reel"; "story"] then VStr "60s" else VNone) ].

Definition youtube_content_type (url : string) : string :=
  if Str.contains "shorts" url then "short" else "video".

Definition youtube_handler (url format : string) : M dict :=
  logger_info ("Processing YouTube URL: " ++ url) ;;;
  let content_type := youtube_content_type url in
  ret [ ("status", VStr "success");
        ("platform", VStr "YouTube");
        ("media_type", VStr "video");
        ("download_url",
          VStr ("https://api.example.com/downloads/youtube/"
                ++ content_type ++ "." ++ format));
        ("thumbnail", VStr "https://api.example.com/thumbnails/youtube_thumbnail.jpg");
        ("title", VStr ("YouTube " ++ Str.capitalize content_type));
        ("duration", VStr (if String.eqb content_type "short" then "30s" else "5m"));
        ("available_formats", VList ["144p"; "240p"; "360p"; "480p"; "720p"; "1080p"]) ].

(** ** Platform handler mapping *)

Definition PLATFORM_HANDLERS : list (string * (string -> string -> M dict)) :=
  [ ("instagram", instagram_handler);
    ("tiktok",    tiktok_handler);
    ("facebook",  facebook_handler);
    ("youtube",   youtube_handler) ].

(** ** [detect_platform] *)

(** The [for platform, pattern in table.items()] loop: the first platform
    whose pattern is found in [domain]. *)
Fixpoint first_match (table : list (string * regex)) (domain : string) : option string :=
  match table with
  | [] => None
  | (platform, pattern) :: others =>
      if re_search pattern domain then Some platform else first_match others domain
  end.

Definition detect_platform (url : string) : M string :=
  parsed_url <- lift (Url.urlparse url) ;;
  let domain := Url.netloc parsed_url in
  match first_match PLATFORM_PATTERNS domain with
  | Some platform => ret platform
  | None => raise (ValueError ("Unsupported platform for URL: " ++ url))
  end.

(** ** [download_media] *)

(** [download_req.format.lower()] *)
Definition format_lower (f : option string) : M string :=
  match f with
  | Some s => ret (Str.lower s)
  | None => raise (AttributeError "'NoneType' object has no attribute 'lower'")
  end.

(** The statements between [try:] and the trailing [except Exception]. *)
Definition download_media_body (download_req : DownloadRequest) : M dict :=
  let url := url download_req in
  format <- format_lower (format download_req) ;;
  if negb (Str.mem format ["mp4"; "mp3"])
  then raise (HTTPException 400 (Lit "Invalid format. Supported formats: mp4, mp3"))
  else
    platform <-
      try_except (detect_platform url) is_ValueError
        (fun e => match e with
                  | ValueError msg => raise (HTTPException 400 (Lit msg))
                  | _ => raise e
                  end) ;;
    match dict_get platform PLATFORM_HANDLERS with
    | None =>
        raise (HTTPException 501
                 (Lit ("Handler for platform '" ++ platform ++ "' not implemented")))
    | Some handler =>
        result <- handler url format ;;
        ret result
    end.

Definition download_media (download_req : DownloadRequest) : M dict :=
  try_except (download_media_body download_req) is_Exception
    (fun e =>
       logger_error (ErrorProcessingRequest e) ;;;
       raise (HTTPException 500 (ErrorProcessingRequest e))).

(** ** [health_check] *)

Definition health_check : M dict := ret [("status", VStr "healthy")].

(** What the client sees: the JSON body with status 200, or the status of
    the [HTTPException] that left the endpoint. *)
Definition http_status {A} (r : res A) : option Z :=
  match r with
  | Ok _ => Some 200%Z
  | Raise (HTTPException code _) => Some code
  | Raise _ => Some 500%Z
  end.


(** ** Rate limiting: [limiter = Limiter(key_func=get_remote_address)]

    Modelled from slowapi's documentation, the package being no part of the
    repository.  Built as in the source, the limiter keeps its counters in
    memory, one per remote address, and uses the fixed-window strategy: the
    first counted request of a client opens a window of one minute, every
    request in the window is counted, and a request is let through when the
    count, itself included, does not exceed 60.  A refused request raises
    [RateLimitExceeded] before the endpoint runs; the registered
    [_rate_limit_exceeded_handler] answers it with status 429 and the JSON
    body shown below.  The [X-RateLimit-*] and [Retry-After] headers are
    injected only by a limiter built with [headers_enabled=True], which this
    one is not.  Clock readings are in microseconds. *)

Module Limiter.

Definition time := Z.

(** ["60/minute"] *)
Definition amount : nat := 60.
Definition expiry : Z := 60 * 1000000.

(** the counter of a key and the moment it expires *)
Record Window := { hits : nat; expires : time }.

Definition storage := list (string * Window).

Fixpoint dict_set {A : Type} (k : string) (v : A) (d : list (string * A))
  : list (string * A) :=
  match d with
  | [] => [(k, v)]
  | (k', v') :: rest =>
      if String.eqb k k' then (k, v) :: rest else (k', v') :: dict_set k v rest
  end.

(** the counter of [key] at [now]; an expired one counts as absent *)
Definition live (now : time) (key : string) (st : storage) : option Window :=
  match dict_get key st with
  | Some w => if (expires w <=? now)%Z then None else Some w
  | None => None
  end.

(** [hit]: count the request and tell whether it is within the limit *)
Definition hit (now : time) (key : string) (st : storage) : bool * storage :=
  match live now key st with
  | Some w =>
      ((S (hits w) <=? amount)%nat,
       dict_set key {| hits := S (hits w); expires := expires w |} st)
  | None =>
      ((1 <=? amount)%nat,
       dict_set key {| hits := 1; expires := (now + expiry)%Z |} st)
  end.

(** [request.client.host], the key [get_remote_address] returns *)
Record Request := { client_host : string }.

(** The answer to a refused request; [limit_headers] are the headers the
    limiter injects. *)
Record Response := {
  status_code : Z;
  content : dict;
  limit_headers : list (string * string)
}.

Definition rate_limit_exceeded_handler : Response :=
  {| status_code := 429;
     content := [("error", VStr "Rate limit exceeded: 60 per 1 minute")];
     limit_headers := [] |}.

Inductive answer (A : Type) :=
| Passed (r : res A)
| RateLimited (response : Response).
Arguments Passed {A} r.
Arguments RateLimited {A} response.

(** [@limiter.limit("60/minute")] around a coroutine *)
Definition limit {A} (f : M A) (now : time) (request : Request)
  : storage * log -> answer A * (storage * log) :=
  fun '(lim, st) =>
    let (admitted, lim') := hit now (client_host request) lim in
    if admitted
    then let (r, st') := f st in (Passed r, (lim', st'))
    else (RateLimited rate_limit_exceeded_handler, (lim', st)).

Definition status {A} (a : answer A) : option Z :=
  match a with
  | Passed r => http_status r
  | RateLimited response => Some (status_code response)
  end.

(** the retry-after hint of an answer, when it has one *)
Definition retry_after {A} (a : answer A) : option string :=
  match a with
  | Passed _ => None
  | RateLimited response => dict_get "Retry-After" (limit_headers response)
  end.

End Limiter.

(** [POST /api/download] as the application serves it *)
Definition post_api_download (now : Limiter.time) (request : Limiter.Request)
    (download_req : DownloadRequest)
  : Limiter.storage * log -> Limiter.answer dict * (Limiter.storage * log) :=
  Limiter.limit (download_media download_req) now request.

(** A run of the service: the calls in order of arrival, each with the
    clock reading at which the limiter sees it. *)
Definition call : Type := Limiter.time * Limiter.Request * DownloadRequest.

Fixpoint serve (calls : list call) (state : Limiter.storage * log)
  : list (Limiter.answer dict) :=
  match calls with
  | [] => []
  | (now, request, download_req) :: later =>
      let (a, state') := post_api_download now request download_req state in
      a :: serve later state'
  end.

(** the answers given to one client, in order *)
Fixpoint answers_to (client : string) (calls : list call)
    (answers : list (Limiter.answer dict)) : list (Limiter.answer dict) :=
  match calls, answers with
  | (_, request, _) :: calls', a :: answers' =>
      if String.eqb (Limiter.client_host request) client
      then a :: answers_to client calls' answers'
      else answers_to client calls' answers'
  | _, _ => []
  end.

(** The call, if it is one of [client], is made in the minute from [t0] on. *)
Definition in_window (client : string) (t0 : Z) (c : call) : Prop :=
  let '(now, request, _) := c in
  Limiter.client_host request = client -> (t0 <= now < t0 + Limiter.expiry)%Z.

(** The limiter has counted [n] requests of [client] in the window that
    covers the minute from [t0] on; none when [n] is zero. *)
Definition counted (client : string) (t0 : Z) (n : nat) (lim : Limiter.storage) : Prop :=
  match n with
  | O => forall w, dict_get client lim = Some w -> (Limiter.expires w <= t0)%Z
  | S _ =>
      exists w, dict_get client lim = Some w /\ Limiter.hits w = n /\
                (t0 + Limiter.expiry <= Limiter.expires w)%Z
  end.

(** Sixty-one calls of one client, half a second apart. *)
Definition burst : list call :=
  map (fun i => ((Z.of_nat i * 500000)%Z,
                 {| Limiter.client_host := "203.0.113.7" |},
                 {| url := "https://www.tiktok.com/@user/video/123"; format := Some "mp4" |}))
      (seq 0 61).

(** [platform] is the first entry of [table], in table order, whose pattern
    is found in [domain]. *)
Definition first_matching (table : list (string * regex)) (domain platform : string) : Prop :=
  exists before pattern after,
    table = (before ++ (platform, pattern) :: after)%list /\
    re_search pattern domain = true /\
    Forall (fun entry => re_search (snd entry) domain = false) before.

(** At most one platform of [table] matches [domain]. *)
Definition exclusive_at (table : list (string * regex)) (domain : string) : Prop :=
  forall p1 r1 p2 r2,
    In (p1, r1) table -> In (p2, r2) table ->
    re_search r1 domain = true -> re_search r2 domain = true -> p1 = p2.

(** The seven fields of the documented response body. *)
Definition response_fields : list string :=
  ["status"; "platform"; "media_type"; "download_url"; "thumbnail"; "title"; "duration"].

(** A body that names only documented fields. *)
Definition only_response_fields (d : dict) : Prop :=
  forall k, In k (keys d) -> In k response_fields.

(** A computation whose result does not look at the log and which only
    appends to it. *)
Definition framed {A} (m : M A) : Prop :=
  exists r delta, forall st, m st = (r, (st ++ delta)%list).

(** * Properties *)

(** ** Strings and URL parsing *)

Section StringLemmas.

Lemma filter_app p a b :
  Str.filter p (a ++ b) = Str.filter p a ++ Str.filter p b.
Proof.
  induction a as [|c a IH]; simpl; [reflexivity|].
  destruct (p c); simpl; now rewrite IH.
Qed.

Lemma filter_id p a : Str.forallb p a = true -> Str.filter p a = a.
Proof.
  induction a as [|c a IH]; simpl; [reflexivity|].
  intros H; apply andb_true_iff in H as [Hc Ha].
  rewrite Hc. now rewrite IH.
Qed.

Lemma forallb_impl (p q : ascii -> bool) a :
  (forall c, p c = true -> q c = true) ->
  Str.forallb p a = true -> Str.forallb q a = true.
Proof.
  intros Hpq; induction a as [|c a IH]; simpl; [reflexivity|].
  intros H; apply andb_true_iff in H as [Hc Ha].
  rewrite (Hpq _ Hc). now apply IH.
Qed.

Lemma scheme_char_plain c :
  Str.mem_char c Url.scheme_chars = true ->
  Ascii.eqb c ":" = false /\ Url.is_unsafe c = false /\ Url.is_c0_or_space c = false.
Proof.
  destruct c as [[] [] [] [] [] [] [] []]; vm_compute; intros H;
    repeat split; congruence.
Qed.

Lemma delim_not_unsafe c : Url.is_delim c = true -> Url.is_unsafe c = false.
Proof.
  destruct c as [[] [] [] [] [] [] [] []]; vm_compute; congruence.
Qed.

Lemma partition_colon_app a b :
  Str.forallb (fun c => negb (Ascii.eqb c ":")) a = true ->
  Url.partition_colon (a ++ String ":" b) = Some (a, b).
Proof.
  induction a as [|c a IH]; simpl; [reflexivity|].
  intros H; apply andb_true_iff in H as [Hc Ha].
  apply negb_true_iff in Hc. rewrite Hc, (IH Ha). reflexivity.
Qed.

Lemma splitnetloc_app nl tl :
  Str.forallb (fun c => negb (Url.is_delim c)) nl = true ->
  Url.is_tail tl = true ->
  Url.splitnetloc (nl ++ tl) = (nl, tl).
Proof.
  intros Hnl Htl. induction nl as [|c nl IH]; simpl.
  - destruct tl as [|d tl]; simpl in *; [reflexivity|]. now rewrite Htl.
  - simpl in Hnl. apply andb_true_iff in Hnl as [Hc Hnl].
    apply negb_true_iff in Hc. rewrite Hc, (IH Hnl). reflexivity.
Qed.

Lemma filter_tail tl :
  Url.is_tail tl = true ->
  Url.is_tail (Str.filter (fun c => negb (Url.is_unsafe c)) tl) = true.
Proof.
  destruct tl as [|c tl]; simpl; [reflexivity|].
  intros H. rewrite (delim_not_unsafe _ H). simpl. exact H.
Qed.

Lemma absent_char_not_contained x s :
  Str.forallb (fun c => negb (Ascii.eqb c x)) s = true ->
  Str.contains (String x EmptyString) s = false.
Proof.
  induction s as [|c s IH]; [reflexivity|].
  cbn [Str.forallb]. intros H. apply andb_true_iff in H as [Hc Hs].
  apply negb_true_iff, Ascii.eqb_neq in Hc.
  cbn [Str.contains prefix]. rewrite (IH Hs).
  destruct (ascii_dec x c) as [->|_]; [contradiction|reflexivity].
Qed.

Lemma is_netloc_parts nl :
  Url.is_netloc nl = true ->
  Str.forallb (fun c => negb (Url.is_delim c)) nl = true /\
  Str.forallb (fun c => negb (Url.is_unsafe c)) nl = true /\
  Str.forallb Url.is_ascii nl = true /\
  Str.contains "[" nl = false /\
  Str.contains "]" nl = false.
Proof.
  unfold Url.is_netloc. intros H.
  repeat split;
    try (revert H; apply forallb_impl; intros c Hc;
         repeat (apply andb_true_iff in Hc as [Hc ?]); assumption);
    apply absent_char_not_contained; revert H; apply forallb_impl; intros c Hc;
    apply andb_true_iff in Hc as [_ Hc]; cbn [Str.mem_char] in Hc;
    rewrite orb_false_r in Hc; apply negb_true_iff, orb_false_iff in Hc as [H1 H2];
    now rewrite ?H1, ?H2.
Qed.

(** On [scheme://netloc tail] the parser finds exactly [netloc]. *)
Lemma urlparse_netloc sch nl tl :
  Url.is_scheme sch = true -> Url.is_netloc nl = true -> Url.is_tail tl = true ->
  Url.urlparse (sch ++ "://" ++ nl ++ tl) =
    Ok {| Url.scheme := Str.lower sch;
          Url.netloc := nl;
          Url.rest := Str.filter (fun c => negb (Url.is_unsafe c)) tl |}.
Proof.
  intros Hs Hn Ht.
  destruct sch as [|c0 sch]; [discriminate|].
  unfold Url.is_scheme in Hs. apply andb_true_iff in Hs as [Ha Hs].
  apply is_netloc_parts in Hn as (Hd & Hu & Hascii & Hopen & Hclose).
  unfold Url.urlparse.
  assert (Hc0 : Url.is_c0_or_space c0 = false).
  { simpl in Hs. apply andb_true_iff in Hs as [Hc _].
    now apply scheme_char_plain in Hc. }
  change ((String c0 sch ++ "://" ++ nl ++ tl)) with
    (String c0 (sch ++ "://" ++ nl ++ tl)).
  cbn [Url.lstrip]. rewrite Hc0.
  change (String c0 (sch ++ "://" ++ nl ++ tl)) with
    (String c0 sch ++ "://" ++ nl ++ tl).
  rewrite !filter_app.
  rewrite (filter_id _ (String c0 sch)).
  2:{ revert Hs. apply forallb_impl. intros c Hc.
      apply scheme_char_plain in Hc as (_ & Hu' & _). now rewrite Hu'. }
  rewrite (filter_id _ nl Hu).
  change (Str.filter (fun c => negb (Url.is_unsafe c)) "://") with "://".
  unfold Url.split_scheme.
  change (String c0 sch ++ "://" ++ nl ++ ?x) with
    (String c0 sch ++ String ":" ("//" ++ nl ++ x)).
  rewrite partition_colon_app.
  2:{ revert Hs. apply forallb_impl. intros c Hc.
      apply scheme_char_plain in Hc as (Hc & _). now rewrite Hc. }
  rewrite Ha, Hs. cbn [andb].
  change ("//" ++ nl ++ ?x) with (String "/" (String "/" (nl ++ x))).
  cbv iota beta.
  rewrite (splitnetloc_app _ _ Hd (filter_tail _ Ht)).
  unfold Url.brackets_ok, Url.checknetloc.
  rewrite Hopen, Hclose, Hascii, orb_true_r. reflexivity.
Qed.

Lemma check_bracketed_host_raises hostname e :
  Url.check_bracketed_host hostname = Raise e -> exists msg, e = ValueError msg.
Proof.
  unfold Url.check_bracketed_host.
  repeat match goal with
         | |- context [if ?b then _ else _] => destruct b
         end; intros [= <-] || discriminate; eauto.
Qed.

Lemma check_bracketed_netloc_raises nl e :
  Url.check_bracketed_netloc nl = Raise e -> exists msg, e = ValueError msg.
Proof.
  unfold Url.check_bracketed_netloc.
  destruct (Url.partition "[" _) as [[before bracketed]|].
  - destruct (negb (Url.is_empty before)); [intros [= <-]; eauto|].
    destruct (Url.partition "]" bracketed) as [[h p]|];
      (destruct (_ && _); [intros [= <-]; eauto|apply check_bracketed_host_raises]).
  - apply check_bracketed_host_raises.
Qed.

Lemma checknetloc_raises nl e :
  Url.checknetloc nl = Raise e -> exists msg, e = ValueError msg.
Proof.
  unfold Url.checknetloc.
  destruct (_ || _); [discriminate|].
  destruct (existsb _ _); [intros [= <-]; eauto|discriminate].
Qed.

(** The parser raises nothing but [ValueError]. *)
Lemma urlparse_raises url e :
  Url.urlparse url = Raise e -> exists msg, e = ValueError msg.
Proof.
  unfold Url.urlparse.
  destruct (Url.split_scheme _) as [sch u].
  destruct u as [|c1 u]; [discriminate|].
  destruct c1 as [[] [] [] [] [] [] [] []]; try discriminate.
  destruct u as [|c2 after]; [discriminate|].
  destruct c2 as [[] [] [] [] [] [] [] []]; try discriminate.
  destruct (Url.splitnetloc after) as [dom tl].
  destruct (negb (Url.brackets_ok dom)); [intros [= <-]; eauto|].
  destruct (Str.contains "[" dom && Str.contains "]" dom).
  - destruct (Url.check_bracketed_netloc dom) as [[]|e'] eqn:E.
    + destruct (Url.checknetloc dom) as [[]|e''] eqn:E'; [discriminate|].
      intros [= <-]. eapply checknetloc_raises; eauto.
    + intros [= <-]. eapply check_bracketed_netloc_raises; eauto.
  - destruct (Url.checknetloc dom) as [[]|e''] eqn:E'; [discriminate|].
    intros [= <-]. eapply checknetloc_raises; eauto.
Qed.

End StringLemmas.

(** ** The detection loop *)

Section FirstMatch.

Variable domain : string.

Lemma first_match_in table platform :
  first_match table domain = Some platform ->
  exists pattern, In (platform, pattern) table /\ re_search pattern domain = true.
Proof.
  induction table as [|[p r] table IH]; simpl; [discriminate|].
  destruct (re_search r domain) eqn:Hr.
  - intros [= <-]. exists r. auto.
  - intros H. destruct (IH H) as (r' & Hin & Hm). exists r'. auto.
Qed.

Lemma first_match_none table :
  first_match table domain = None <->
  Forall (fun entry => re_search (snd entry) domain = false) table.
Proof.
  induction table as [|[p r] table IH]; simpl.
  - split; auto.
  - destruct (re_search r domain) eqn:Hr; split.
    + discriminate.
    + intros H. inversion H; subst. simpl in *. congruence.
    + intros H. constructor; [exact Hr | now apply IH].
    + intros H. inversion H; subst. now apply IH.
Qed.

Lemma first_match_found table platform pattern :
  In (platform, pattern) table -> re_search pattern domain = true ->
  exists winner, first_match table domain = Some winner.
Proof.
  intros Hin Hm. destruct (first_match table domain) as [w|] eqn:E; [eauto|].
  apply first_match_none in E. rewrite Forall_forall in E.
  specialize (E _ Hin). simpl in E. congruence.
Qed.

Lemma first_match_spec table platform :
  first_match table domain = Some platform <-> first_matching table domain platform.
Proof.
  induction table as [|[p r] table IH]; simpl.
  - split; [discriminate|].
    intros (before & pat & after & E & _). now destruct before.
  - destruct (re_search r domain) eqn:Hr; split.
    + intros [= <-]. exists [], r, table. auto.
    + intros (before & pat & after & E & Hm & Hb).
      destruct before as [|[p' r'] before]; simpl in E.
      * now injection E as -> _ _.
      * injection E as <- <- _. inversion Hb; subst. simpl in *. congruence.
    + intros H. apply IH in H as (before & pat & after & -> & Hm & Hb).
      exists ((p, r) :: before), pat, after. repeat split; auto.
    + intros (before & pat & after & E & Hm & Hb).
      destruct before as [|[p' r'] before]; simpl in E.
      * injection E as _ <- _. congruence.
      * injection E as _ _ ->. inversion Hb; subst.
        apply IH. exists before, pat, after. auto.
Qed.

Lemma first_match_perm table table' :
  Permutation table' table -> exclusive_at table domain ->
  first_match table' domain = first_match table domain.
Proof.
  intros Hp Hex.
  destruct (first_match table domain) as [w|] eqn:E.
  - apply first_match_in in E as (r & Hin & Hm).
    assert (Hin' : In (w, r) table') by (eapply Permutation_in; [symmetry|]; eauto).
    destruct (first_match_found _ _ _ Hin' Hm) as (w' & E').
    rewrite E'. apply first_match_in in E' as (r' & Hin2 & Hm').
    f_equal. eapply Hex; eauto. eapply Permutation_in; eauto.
  - apply first_match_none. apply first_match_none in E.
    eapply Permutation_Forall; [symmetry|]; eauto.
Qed.

End FirstMatch.

Lemma detect_platform_eq url st :
  detect_platform url st =
    match Url.urlparse url with
    | Ok parsed_url =>
        match first_match PLATFORM_PATTERNS (Url.netloc parsed_url) with
        | Some platform => (Ok platform, st)
        | None => (Raise (ValueError ("Unsupported platform for URL: " ++ url)), st)
        end
    | Raise e => (Raise e, st)
    end.
Proof.
  unfold detect_platform, bind, lift, ret, raise.
  destruct (Url.urlparse url) as [parsed|e]; [|reflexivity].
  now destruct (first_match PLATFORM_PATTERNS (Url.netloc parsed)).
Qed.

Lemma detected_platform_named url st platform st' :
  detect_platform url st = (Ok platform, st') ->
  In platform ["instagram"; "tiktok"; "facebook"; "youtube"].
Proof.
  rewrite detect_platform_eq.
  destruct (Url.urlparse url) as [parsed|e]; [|discriminate].
  destruct (first_match _ _) as [p|] eqn:E; [|discriminate].
  intros [= <- _]. apply first_match_in in E as (r & Hin & _).
  simpl in Hin. simpl.
  repeat (destruct Hin as [Hin|Hin]; [injection Hin as <- _; tauto|]).
  contradiction.
Qed.

(** ** Platform detection *)

(** C1 (as the code has it).  On every URL [scheme://netloc tail] whose
    netloc, ASCII text without square brackets, is matched by the pattern of
    some supported platform, [detect_platform] returns without raising and
    leaves the log alone, whatever the tail (path, query, fragment) is.  The
    platform returned is the first one of
    [PLATFORM_PATTERNS], in table order, whose pattern is found in the
    netloc; it is the matched platform itself whenever no other platform's
    pattern is found there too. *)
Theorem detect_platform_matching_host
    (sch nl tl platform : string) (pattern : regex) (st : log) :
  Url.is_scheme sch = true -> Url.is_netloc nl = true -> Url.is_tail tl = true ->
  In (platform, pattern) PLATFORM_PATTERNS ->
  re_search pattern nl = true ->
  exists winner,
    detect_platform (sch ++ "://" ++ nl ++ tl) st = (Ok winner, st) /\
    first_matching PLATFORM_PATTERNS nl winner /\
    (exclusive_at PLATFORM_PATTERNS nl -> winner = platform).
Proof.
  intros Hs Hn Ht Hin Hm.
  destruct (first_match_found nl _ _ _ Hin Hm) as (winner & E).
  exists winner. rewrite detect_platform_eq, (urlparse_netloc _ _ _ Hs Hn Ht).
  cbn [Url.netloc]. rewrite E. split; [reflexivity|]. split.
  - now apply first_match_spec.
  - intros Hex. apply first_match_in in E as (r & Hin' & Hm').
    eapply Hex; eauto.
Qed.

Lemma detect_platform_matching_host_witness :
  Url.is_scheme "https" = true /\
  Url.is_netloc "www.instagram.com" = true /\
  Url.is_tail "/some/unknown/shape?x=1" = true /\
  In ("instagram", ["instagram.com"; "instagr.am"]) PLATFORM_PATTERNS /\
  re_search ["instagram.com"; "instagr.am"] "www.instagram.com" = true /\
  exists winner,
    detect_platform ("https" ++ "://" ++ "www.instagram.com" ++ "/some/unknown/shape?x=1") []
      = (Ok winner, []) /\
    first_matching PLATFORM_PATTERNS "www.instagram.com" winner /\
    (exclusive_at PLATFORM_PATTERNS "www.instagram.com" -> winner = "instagram").
Proof.
  repeat (split; [first [reflexivity | now left]|]).
  apply (detect_platform_matching_host "https" "www.instagram.com"
           "/some/unknown/shape?x=1" "instagram" ["instagram.com"; "instagr.am"] []);
    first [reflexivity | now left].
Defined.

(** C1, counterexample.  The host [tiktok.com.instagram.com] is matched by
    the TikTok pattern, yet detection answers [instagram]. *)
Lemma detect_platform_matching_host_counterexample :
  ~ (forall url parsed platform pattern st,
       In (platform, pattern) PLATFORM_PATTERNS ->
       Url.urlparse url = Ok parsed ->
       re_search pattern (Url.netloc parsed) = true ->
       fst (detect_platform url st) = Ok platform).
Proof.
  intros H.
  specialize (H "https://tiktok.com.instagram.com/video/1"
                {| Url.scheme := "https"; Url.netloc := "tiktok.com.instagram.com";
                   Url.rest := "/video/1" |}
                "tiktok" ["tiktok.com"; "vm.tiktok.com"] []).
  assert (E : fst (detect_platform "https://tiktok.com.instagram.com/video/1" [])
              = Ok "instagram") by reflexivity.
  rewrite E in H.
  discriminate H; [right; left|..]; reflexivity.
Qed.

(** C4 (as the code has it).  The patterns are not kept apart: the table
    is searched in insertion order and the first platform whose pattern is
    found in the host wins, in the loop and so in [detect_platform], for
    every host.  For a host at which at most one platform matches, every
    reordering of the table gives the same answer. *)
Theorem first_match_order_independent (table : list (string * regex)) (host : string) :
  (forall platform,
     first_match PLATFORM_PATTERNS host = Some platform <->
     first_matching PLATFORM_PATTERNS host platform) /\
  (forall url parsed st platform,
     Url.urlparse url = Ok parsed -> Url.netloc parsed = host ->
     (fst (detect_platform url st) = Ok platform <->
      first_matching PLATFORM_PATTERNS host platform)) /\
  (Permutation table PLATFORM_PATTERNS ->
   exclusive_at PLATFORM_PATTERNS host ->
   first_match table host = first_match PLATFORM_PATTERNS host).
Proof.
  split; [intros platform; apply first_match_spec|]. split.
  - intros url parsed st platform Hu <-.
    rewrite detect_platform_eq, Hu, <- first_match_spec.
    destruct (first_match PLATFORM_PATTERNS (Url.netloc parsed)) as [p|]; cbn [fst];
      split; intros H; congruence.
  - intros Hp Hex. now apply first_match_perm.
Qed.

Lemma exclusive_at_youtube : exclusive_at PLATFORM_PATTERNS "www.youtube.com".
Proof.
  intros p1 r1 p2 r2 H1 H2. simpl in H1, H2.
  repeat (destruct H1 as [H1|H1]; [injection H1 as <- <-|]); try contradiction;
    repeat (destruct H2 as [H2|H2]; [injection H2 as <- <-|]); try contradiction;
    vm_compute; congruence.
Qed.

Lemma first_match_order_independent_witness :
  Permutation (rev PLATFORM_PATTERNS) PLATFORM_PATTERNS /\
  exclusive_at PLATFORM_PATTERNS "www.youtube.com" /\
  first_match (rev PLATFORM_PATTERNS) "www.youtube.com"
    = first_match PLATFORM_PATTERNS "www.youtube.com".
Proof.
  split; [symmetry; apply Permutation_rev|].
  split; [exact exclusive_at_youtube|].
  apply (proj2 (proj2 (first_match_order_independent
                         (rev PLATFORM_PATTERNS) "www.youtube.com"))).
  - symmetry; apply Permutation_rev.
  - exact exclusive_at_youtube.
Defined.

(** C4, counterexample.  The host [fb.com.youtube.com] is matched by the
    Facebook and by the YouTube pattern, and walking the table backwards
    changes the platform detected. *)
Lemma patterns_overlap_counterexample :
  ~ (forall host, exclusive_at PLATFORM_PATTERNS host) /\
  first_match (rev PLATFORM_PATTERNS) "fb.com.youtube.com"
    <> first_match PLATFORM_PATTERNS "fb.com.youtube.com".
Proof.
  split.
  - intros H.
    specialize (H "fb.com.youtube.com"
                  "facebook" ["facebook.com"; "fb.com"; "fb.watch"]
                  "youtube" ["youtube.com"; "youtu.be"]).
    discriminate H; [right; right; left|right; right; right; left|..]; reflexivity.
  - vm_compute. discriminate.
Qed.

(** ** Handlers and dispatch *)

Lemma dict_get_handler platform handler :
  dict_get platform PLATFORM_HANDLERS = Some handler ->
  handler = instagram_handler \/ handler = tiktok_handler \/
  handler = facebook_handler \/ handler = youtube_handler.
Proof.
  unfold PLATFORM_HANDLERS, dict_get.
  repeat match goal with
         | |- context [String.eqb platform ?k] => destruct (String.eqb platform k)
         end;
    intros [= <-] || discriminate; tauto.
Qed.

Lemma bind_ret {A} (m : M A) st : bind m (fun a => ret a) st = m st.
Proof. unfold bind, ret. now destruct (m st) as [[a|e] st']. Qed.

(** The body, step by step. *)
Lemma download_media_body_eq req st :
  download_media_body req st =
    match format req with
    | None => (Raise (AttributeError "'NoneType' object has no attribute 'lower'"), st)
    | Some fmt =>
        if negb (Str.mem (Str.lower fmt) ["mp4"; "mp3"])
        then (Raise (HTTPException 400 (Lit "Invalid format. Supported formats: mp4, mp3")), st)
        else
          match detect_platform (url req) st with
          | (Ok platform, st') =>
              match dict_get platform PLATFORM_HANDLERS with
              | Some handler => handler (url req) (Str.lower fmt) st'
              | None =>
                  (Raise (HTTPException 501
                            (Lit ("Handler for platform '" ++ platform
                                  ++ "' not implemented"))), st')
              end
          | (Raise (ValueError msg), st') => (Raise (HTTPException 400 (Lit msg)), st')
          | (Raise e, st') => (Raise e, st')
          end
    end.
Proof.
  unfold download_media_body.
  destruct (format req) as [fmt|]; cbn [format_lower]; [|reflexivity].
  unfold bind at 1. unfold ret at 1.
  destruct (negb _); [reflexivity|].
  unfold bind at 1, try_except.
  destruct (detect_platform (url req) st) as [[platform|e] st'].
  - destruct (dict_get platform PLATFORM_HANDLERS); [apply bind_ret|reflexivity].
  - now destruct e.
Qed.

(** The body either stops with an exception other than status 501, or
    hands the request to the handler registered for the detected platform. *)
Lemma download_media_body_cases req st :
  (exists e, download_media_body req st = (Raise e, st) /\
             forall detail, e <> HTTPException 501 detail) \/
  (exists fmt platform handler,
      format req = Some fmt /\
      Str.mem (Str.lower fmt) ["mp4"; "mp3"] = true /\
      detect_platform (url req) st = (Ok platform, st) /\
      dict_get platform PLATFORM_HANDLERS = Some handler /\
      download_media_body req st = handler (url req) (Str.lower fmt) st).
Proof.
  rewrite download_media_body_eq.
  destruct (format req) as [fmt|].
  2:{ left. eexists. split; [reflexivity|]. discriminate. }
  destruct (Str.mem (Str.lower fmt) ["mp4"; "mp3"]) eqn:Hfmt; cbn [negb].
  2:{ left. eexists. split; [reflexivity|]. discriminate. }
  destruct (detect_platform (url req) st) as [[platform|e] st'] eqn:Hd.
  - pose proof Hd as Hst. rewrite detect_platform_eq in Hst.
    assert (st' = st) as ->.
    { destruct (Url.urlparse (url req)); [|discriminate].
      destruct (first_match _ _); now inversion Hst. }
    pose proof (detected_platform_named _ _ _ _ Hd) as Hp.
    right. exists fmt, platform. simpl in Hp.
    repeat (destruct Hp as [<-|Hp]; [eexists; repeat split; first [exact Hfmt|reflexivity]|]).
    contradiction.
  - left. rewrite detect_platform_eq in Hd.
    destruct (Url.urlparse (url req)) as [parsed|e'] eqn:E.
    + destruct (first_match _ _); inversion Hd; subst.
      eexists. split; [reflexivity|]. discriminate.
    + inversion Hd; subst. destruct (urlparse_raises _ _ E) as (msg & ->).
      eexists. split; [reflexivity|]. discriminate.
Qed.

(** The endpoint turns every exception of its body into status 500. *)
Lemma download_media_eq req st :
  download_media req st =
    match download_media_body req st with
    | (Ok d, st') => (Ok d, st')
    | (Raise e, st') =>
        (Raise (HTTPException 500 (ErrorProcessingRequest e)),
         (st' ++ [(ERROR, ErrorProcessingRequest e)])%list)
    end.
Proof.
  unfold download_media, try_except, is_Exception.
  now destruct (download_media_body req st) as [[d|e] st'].
Qed.

Section Framed.

Lemma framed_ret {A} (a : A) : framed (ret a).
Proof. exists (Ok a), []. intros st. unfold ret. now rewrite app_nil_r. Qed.

Lemma framed_raise {A} e : framed (@raise A e).
Proof. exists (Raise e), []. intros st. unfold raise. now rewrite app_nil_r. Qed.

Lemma framed_lift {A} (r : res A) : framed (lift r).
Proof. exists r, []. intros st. unfold lift. now rewrite app_nil_r. Qed.

Lemma framed_logger_info msg : framed (logger_info msg).
Proof. now exists (Ok tt), [(INFO, Lit msg)]. Qed.

Lemma framed_logger_error msg : framed (logger_error msg).
Proof. now exists (Ok tt), [(ERROR, msg)]. Qed.

Lemma framed_bind {A B} (m : M A) (k : A -> M B) :
  framed m -> (forall a, framed (k a)) -> framed (bind m k).
Proof.
  intros (r & d & Hm) Hk. destruct r as [a|e].
  - destruct (Hk a) as (r' & d' & Hka).
    exists r', (d ++ d')%list. intros st.
    unfold bind. now rewrite Hm, Hka, app_assoc.
  - exists (Raise e), d. intros st. unfold bind. now rewrite Hm.
Qed.

Lemma framed_try_except {A} (m : M A) catches h :
  framed m -> (forall e, framed (h e)) -> framed (try_except m catches h).
Proof.
  intros (r & d & Hm) Hh. destruct r as [a|e].
  - exists (Ok a), d. intros st. unfold try_except. now rewrite Hm.
  - destruct (catches e) eqn:Hc.
    + destruct (Hh e) as (r' & d' & Hhe).
      exists r', (d ++ d')%list. intros st.
      unfold try_except. now rewrite Hm, Hc, Hhe, app_assoc.
    + exists (Raise e), d. intros st. unfold try_except. now rewrite Hm, Hc.
Qed.

Lemma framed_detect_platform url : framed (detect_platform url).
Proof.
  unfold detect_platform. apply framed_bind; [apply framed_lift|].
  intros parsed. destruct (first_match _ _); [apply framed_ret|apply framed_raise].
Qed.

Lemma framed_handler platform handler url fmt :
  dict_get platform PLATFORM_HANDLERS = Some handler -> framed (handler url fmt).
Proof.
  intros H. apply dict_get_handler in H as [-> | [-> | [-> | ->]]];
    (apply framed_bind; [apply framed_logger_info|intros _; apply framed_ret]).
Qed.

Lemma framed_download_media req : framed (download_media req).
Proof.
  unfold download_media. apply framed_try_except.
  2:{ intros e. apply framed_bind; [apply framed_logger_error|].
      intros _. apply framed_raise. }
  unfold download_media_body. apply framed_bind.
  { unfold format_lower. destruct (format req); [apply framed_ret|apply framed_raise]. }
  intros fmt. destruct (negb _); [apply framed_raise|].
  apply framed_bind.
  { apply framed_try_except; [apply framed_detect_platform|].
    intros [c d|msg|msg]; apply framed_raise. }
  intros platform.
  destruct (dict_get platform PLATFORM_HANDLERS) as [handler|] eqn:Hh;
    [|apply framed_raise].
  apply framed_bind; [now apply (framed_handler platform)|].
  intros d. apply framed_ret.
Qed.

Lemma framed_fst {A} (m : M A) st1 st2 : framed m -> fst (m st1) = fst (m st2).
Proof. intros (r & d & Hm). now rewrite !Hm. Qed.

End Framed.

(** ** The endpoint *)

(** C2 (the code departs from the claim).  [https://example.com/video] is
    rejected by detection and the body raises the intended status 400, but
    the trailing [except Exception] of [download_media] catches that
    [HTTPException] too and the client is answered 500.  The same happens to
    the 400 raised for a format other than mp4 and mp3. *)
Theorem unsupported_requests_answer_500 (st : log) :
  fst (detect_platform "https://example.com/video" st)
    = Raise (ValueError "Unsupported platform for URL: https://example.com/video") /\
  http_status (fst (download_media_body
                      {| url := "https://example.com/video"; format := Some "mp4" |} st))
    = Some 400%Z /\
  http_status (fst (download_media
                      {| url := "https://example.com/video"; format := Some "mp4" |} st))
    = Some 500%Z /\
  http_status (fst (download_media_body
                      {| url := "https://www.tiktok.com/@user/video/123";
                         format := Some "avi" |} st))
    = Some 400%Z /\
  http_status (fst (download_media
                      {| url := "https://www.tiktok.com/@user/video/123";
                         format := Some "avi" |} st))
    = Some 500%Z.
Proof. repeat split; reflexivity. Qed.

(** C3 (as the code has it).  Every handler answers with the seven fields
    status, platform, media_type, download_url, thumbnail, title and
    duration, in this order, [duration] being always present (null for
    images).  The Instagram and Facebook handlers stop there; the TikTok
    handler adds [audio_url] and the YouTube handler adds
    [available_formats].  Every successful answer of the endpoint is one of
    these. *)
Theorem response_body_fields :
  (forall u fmt st,
     (exists d, fst (instagram_handler u fmt st) = Ok d /\ keys d = response_fields) /\
     (exists d, fst (facebook_handler u fmt st) = Ok d /\ keys d = response_fields) /\
     (exists d, fst (tiktok_handler u fmt st) = Ok d /\
                keys d = (response_fields ++ ["audio_url"])%list) /\
     (exists d, fst (youtube_handler u fmt st) = Ok d /\
                keys d = (response_fields ++ ["available_formats"])%list)) /\
  (forall req st d,
     fst (download_media req st) = Ok d ->
     (dict_get "platform" d = Some (VStr "Instagram") /\ keys d = response_fields) \/
     (dict_get "platform" d = Some (VStr "Facebook") /\ keys d = response_fields) \/
     (dict_get "platform" d = Some (VStr "TikTok") /\
      keys d = (response_fields ++ ["audio_url"])%list) \/
     (dict_get "platform" d = Some (VStr "YouTube") /\
      keys d = (response_fields ++ ["available_formats"])%list)).
Proof.
  split.
  - intros u fmt st. repeat split; eexists; split; reflexivity.
  - intros req st d. rewrite download_media_eq.
    destruct (download_media_body_cases req st)
      as [(e & -> & _)|(fmt & p & h & _ & _ & _ & Hh & ->)]; [discriminate|].
    apply dict_get_handler in Hh as [-> | [-> | [-> | ->]]];
      cbv [instagram_handler facebook_handler tiktok_handler youtube_handler
           bind logger_info ret fst];
      intros [= <-]; cbn [keys map fst dict_get String.eqb Ascii.eqb Bool.eqb];
      tauto.
Qed.

Lemma response_body_fields_witness :
  let d :=
    [ ("status", VStr "success");
      ("platform", VStr "YouTube");
      ("media_type", VStr "video");
      ("download_url", VStr "https://api.example.com/downloads/youtube/video.mp4");
      ("thumbnail", VStr "https://api.example.com/thumbnails/youtube_thumbnail.jpg");
      ("title", VStr "YouTube Video");
      ("duration", VStr "5m");
      ("available_formats", VList ["144p"; "240p"; "360p"; "480p"; "720p"; "1080p"]) ] in
  fst (download_media {| url := "https://youtu.be/abc"; format := Some "mp4" |} []) = Ok d /\
  ((dict_get "platform" d = Some (VStr "Instagram") /\ keys d = response_fields) \/
   (dict_get "platform" d = Some (VStr "Facebook") /\ keys d = response_fields) \/
   (dict_get "platform" d = Some (VStr "TikTok") /\
    keys d = (response_fields ++ ["audio_url"])%list) \/
   (dict_get "platform" d = Some (VStr "YouTube") /\
    keys d = (response_fields ++ ["available_formats"])%list)).
Proof.
  intros d. split; [reflexivity|].
  exact (proj2 response_body_fields
           {| url := "https://youtu.be/abc"; format := Some "mp4" |} [] d eq_refl).
Defined.

(** C3, counterexample.  The answer to a TikTok request carries the field
    [audio_url], which is none of the seven documented fields. *)
Lemma response_body_fields_counterexample :
  ~ (forall req st d, fst (download_media req st) = Ok d -> only_response_fields d).
Proof.
  intros H.
  assert (Hin : In "audio_url" response_fields).
  { apply (H {| url := "https://www.tiktok.com/@user/video/123"; format := Some "mp4" |}
             [] _ eq_refl).
    cbn. tauto. }
  simpl in Hin. intuition discriminate.
Qed.

(** C5 (as the code has it).  For an Instagram URL that contains neither
    [reel] nor [p/], the handler does not fail and takes the content for a
    story: the answer is a video titled [Instagram Story] with duration
    [15s]. *)
Theorem instagram_unknown_shape_is_story (u fmt : string) (st : log) :
  Str.contains "reel" u = false ->
  Str.contains "p/" u = false ->
  instagram_content_type u = "story" /\
  exists d,
    fst (instagram_handler u fmt st) = Ok d /\
    dict_get "title" d = Some (VStr "Instagram Story") /\
    dict_get "media_type" d = Some (VStr "video") /\
    dict_get "duration" d = Some (VStr "15s") /\
    dict_get "download_url" d
      = Some (VStr ("https://api.example.com/downloads/instagram/story_processed." ++ fmt)).
Proof.
  intros Hreel Hpost.
  assert (E : instagram_content_type u = "story").
  { unfold instagram_content_type. now rewrite Hreel, Hpost. }
  split; [exact E|].
  unfold instagram_handler, bind, logger_info, ret. cbn [fst].
  rewrite E. eexists. split; [reflexivity|]. repeat split.
Qed.

Lemma instagram_unknown_shape_is_story_witness :
  Str.contains "reel" "https://www.instagram.com/stories/user/1" = false /\
  Str.contains "p/" "https://www.instagram.com/stories/user/1" = false /\
  instagram_content_type "https://www.instagram.com/stories/user/1" = "story" /\
  exists d,
    fst (instagram_handler "https://www.instagram.com/stories/user/1" "mp4" []) = Ok d /\
    dict_get "title" d = Some (VStr "Instagram Story") /\
    dict_get "media_type" d = Some (VStr "video") /\
    dict_get "duration" d = Some (VStr "15s") /\
    dict_get "download_url" d
      = Some (VStr ("https://api.example.com/downloads/instagram/story_processed." ++ "mp4")).
Proof.
  split; [reflexivity|]. split; [reflexivity|].
  apply (instagram_unknown_shape_is_story
           "https://www.instagram.com/stories/user/1" "mp4" []); reflexivity.
Defined.

(** C5, counterexample.  [https://www.instagram.com/stories/user/1] carries
    neither marker and its content kind is not [post]. *)
Lemma instagram_unknown_shape_counterexample :
  ~ (forall u,
       Str.contains "reel" u = false -> Str.contains "p/" u = false ->
       instagram_content_type u = "post").
Proof.
  intros H.
  specialize (H "https://www.instagram.com/stories/user/1" eq_refl eq_refl).
  discriminate H.
Qed.

(** C6.  Detection and the endpoint are deterministic in their inputs: for
    the same URL and format, two runs started from any two states of the
    log give the same outcome, be it the same response body, field by field,
    or the same exception; so does each of the four handlers. *)
Theorem resolution_deterministic (u : string) (fmt : option string) (f : string)
    (st1 st2 : log) :
  fst (detect_platform u st1) = fst (detect_platform u st2) /\
  fst (download_media {| url := u; format := fmt |} st1)
    = fst (download_media {| url := u; format := fmt |} st2) /\
  fst (instagram_handler u f st1) = fst (instagram_handler u f st2) /\
  fst (tiktok_handler u f st1) = fst (tiktok_handler u f st2) /\
  fst (facebook_handler u f st1) = fst (facebook_handler u f st2) /\
  fst (youtube_handler u f st1) = fst (youtube_handler u f st2).
Proof.
  split; [apply framed_fst, framed_detect_platform|].
  split; [apply framed_fst, framed_download_media|].
  split; [apply framed_fst, (framed_handler "instagram"); reflexivity|].
  split; [apply framed_fst, (framed_handler "tiktok"); reflexivity|].
  split; [apply framed_fst, (framed_handler "facebook"); reflexivity|].
  apply framed_fst, (framed_handler "youtube"); reflexivity.
Qed.

(** C7.  The request for [https://www.tiktok.com/@user/video/123] in format
    [mp4] is classified as TikTok and answered with status 200 by a body
    whose platform is TikTok, whose media type is video and which carries a
    download URL. *)
Theorem tiktok_scenario (st : log) :
  let req := {| url := "https://www.tiktok.com/@user/video/123"; format := Some "mp4" |} in
  fst (detect_platform (url req) st) = Ok "tiktok" /\
  exists d,
    fst (download_media req st) = Ok d /\
    http_status (fst (download_media req st)) = Some 200%Z /\
    dict_get "status" d = Some (VStr "success") /\
    dict_get "platform" d = Some (VStr "TikTok") /\
    dict_get "media_type" d = Some (VStr "video") /\
    dict_get "download_url" d
      = Some (VStr "https://api.example.com/downloads/tiktok/video_nowatermark.mp4").
Proof.
  intros req. split; [reflexivity|].
  eexists. split; [reflexivity|]. repeat split.
Qed.

(** C9.  Whatever the body of [download_media] raises leaves the endpoint
    as an [HTTPException] of status 500 wrapping it, after one ERROR line in
    the log; a request answered by the body is never answered 400 or 501.
    In particular the 400 raised for a format other than mp4 and mp3 and the
    400 raised for a URL of no supported platform both reach the client as
    500. *)
Theorem download_media_failures_are_500 (req : DownloadRequest) (st : log) :
  (forall e st',
     download_media_body req st = (Raise e, st') ->
     download_media req st =
       (Raise (HTTPException 500 (ErrorProcessingRequest e)),
        (st' ++ [(ERROR, ErrorProcessingRequest e)])%list)) /\
  (forall e,
     fst (download_media req st) = Raise e ->
     exists cause, e = HTTPException 500 (ErrorProcessingRequest cause)) /\
  http_status (fst (download_media req st)) <> Some 400%Z /\
  http_status (fst (download_media req st)) <> Some 501%Z /\
  (forall fmt,
     format req = Some fmt -> Str.mem (Str.lower fmt) ["mp4"; "mp3"] = false ->
     fst (download_media req st) =
       Raise (HTTPException 500
                (ErrorProcessingRequest
                   (HTTPException 400
                      (Lit "Invalid format. Supported formats: mp4, mp3"))))) /\
  (forall fmt parsed,
     format req = Some fmt -> Str.mem (Str.lower fmt) ["mp4"; "mp3"] = true ->
     Url.urlparse (url req) = Ok parsed ->
     first_match PLATFORM_PATTERNS (Url.netloc parsed) = None ->
     fst (download_media req st) =
       Raise (HTTPException 500
                (ErrorProcessingRequest
                   (HTTPException 400
                      (Lit ("Unsupported platform for URL: " ++ url req)))))).
Proof.
  rewrite download_media_eq.
  repeat split.
  - intros e st' ->. reflexivity.
  - destruct (download_media_body req st) as [[d|e'] st']; cbn [fst];
      [discriminate|]. intros e [= <-]. eauto.
  - destruct (download_media_body req st) as [[d|e'] st']; cbn; discriminate.
  - destruct (download_media_body req st) as [[d|e'] st']; cbn; discriminate.
  - intros fmt Hf Hm. rewrite download_media_body_eq, Hf, Hm. reflexivity.
  - intros fmt parsed Hf Hm Hu Hn.
    rewrite download_media_body_eq, Hf, Hm, detect_platform_eq, Hu, Hn. reflexivity.
Qed.

Lemma download_media_failures_are_500_witness :
  let req := {| url := "https://example.com/video"; format := Some "MP4" |} in
  download_media_body req [] =
    (Raise (HTTPException 400
              (Lit "Unsupported platform for URL: https://example.com/video")), []) /\
  download_media req [] =
    (Raise (HTTPException 500
              (ErrorProcessingRequest
                 (HTTPException 400
                    (Lit "Unsupported platform for URL: https://example.com/video")))),
     [(ERROR,
       ErrorProcessingRequest
         (HTTPException 400
            (Lit "Unsupported platform for URL: https://example.com/video")))]).
Proof.
  intros req. split; [reflexivity|].
  exact (proj1 (download_media_failures_are_500 req []) _ _ eq_refl).
Defined.

(** C10.  Every platform name [detect_platform] returns is a key of
    [PLATFORM_HANDLERS], and the body of [download_media] never raises the
    status 501 of its "handler not implemented" branch. *)
Theorem handler_always_registered (req : DownloadRequest) (st : log) :
  (forall platform st',
     detect_platform (url req) st = (Ok platform, st') ->
     In platform (map fst PLATFORM_PATTERNS) /\
     exists handler, dict_get platform PLATFORM_HANDLERS = Some handler) /\
  (forall detail st',
     download_media_body req st <> (Raise (HTTPException 501 detail), st')).
Proof.
  split.
  - intros platform st' Hd.
    pose proof (detected_platform_named _ _ _ _ Hd) as Hp. split; [exact Hp|].
    simpl in Hp.
    repeat (destruct Hp as [<-|Hp]; [eexists; reflexivity|]). contradiction.
  - intros detail st' H.
    destruct (download_media_body_cases req st)
      as [(e & E & Hne)|(fmt & p & h & _ & _ & _ & Hh & E)]; rewrite E in H.
    + injection H as -> _. now apply (Hne detail).
    + apply dict_get_handler in Hh as [-> | [-> | [-> | ->]]]; discriminate H.
Qed.

Lemma handler_always_registered_witness :
  detect_platform "https://fb.watch/abc" [] = (Ok "facebook", []) /\
  In "facebook" (map fst PLATFORM_PATTERNS) /\
  exists handler, dict_get "facebook" PLATFORM_HANDLERS = Some handler.
Proof.
  split; [reflexivity|].
  exact (proj1 (handler_always_registered
                  {| url := "https://fb.watch/abc"; format := Some "mp4" |} [])
           "facebook" [] eq_refl).
Defined.


(** ** Rate limiting *)

Section FixedWindow.

Variable client : string.
Variable t0 : Z.

Lemma dict_get_set_same {A} k (v : A) d :
  dict_get k (Limiter.dict_set k v d) = Some v.
Proof.
  induction d as [|[k' v'] d IH]; simpl.
  - now rewrite String.eqb_refl.
  - destruct (String.eqb k k') eqn:E; simpl; [now rewrite String.eqb_refl|].
    now rewrite E.
Qed.

Lemma dict_get_set_other {A} k k' (v : A) d :
  k' <> k -> dict_get k' (Limiter.dict_set k v d) = dict_get k' d.
Proof.
  intros Hne. induction d as [|[k2 v2] d IH]; simpl.
  - apply String.eqb_neq in Hne. now rewrite Hne.
  - destruct (String.eqb_spec k k2) as [->|Hk]; simpl.
    + apply String.eqb_neq in Hne. now rewrite Hne.
    + now rewrite IH.
Qed.

Lemma hit_client n lim now :
  counted client t0 n lim -> (t0 <= now < t0 + Limiter.expiry)%Z ->
  fst (Limiter.hit now client lim) = (S n <=? Limiter.amount)%nat /\
  counted client t0 (S n) (snd (Limiter.hit now client lim)).
Proof.
  intros Hc Hnow. unfold Limiter.hit, Limiter.live.
  destruct n as [|n]; cbn [counted] in Hc; unfold Limiter.expiry in *.
  - destruct (dict_get client lim) as [w|] eqn:E.
    + specialize (Hc w eq_refl).
      destruct (Z.leb_spec (Limiter.expires w) now); [|lia].
      cbn [fst snd counted]. split; [reflexivity|].
      rewrite dict_get_set_same. eexists. repeat split; cbn; lia.
    + cbn [fst snd counted]. split; [reflexivity|].
      rewrite dict_get_set_same. eexists. repeat split; cbn; lia.
  - destruct Hc as (w & E & Hh & He). rewrite E.
    destruct (Z.leb_spec (Limiter.expires w) now); [lia|].
    cbn [fst snd counted]. rewrite Hh. split; [reflexivity|].
    rewrite dict_get_set_same. eexists. repeat split; cbn; lia.
Qed.

Lemma hit_other n lim now key :
  key <> client -> counted client t0 n lim ->
  counted client t0 n (snd (Limiter.hit now key lim)).
Proof.
  intros Hne Hc.
  assert (E : dict_get client (snd (Limiter.hit now key lim)) = dict_get client lim).
  { unfold Limiter.hit. destruct (Limiter.live now key lim);
      cbn [snd]; apply dict_get_set_other; congruence. }
  destruct n; cbn [counted] in *; now rewrite E.
Qed.

Lemma serve_counted calls : forall n lim st,
  counted client t0 n lim -> Forall (in_window client t0) calls ->
  forall k a,
    nth_error (answers_to client calls (serve calls (lim, st))) k = Some a ->
    (n + k < 60 -> exists r, a = Limiter.Passed r) /\
    (60 <= n + k -> a = Limiter.RateLimited Limiter.rate_limit_exceeded_handler).
Proof.
  induction calls as [|[[now request] dreq] calls IH]; intros n lim st Hc Hw k a.
  - destruct k; discriminate.
  - inversion Hw as [|? ? Hnow Hw']; subst. cbn [in_window] in Hnow.
    cbn [serve]. unfold post_api_download, Limiter.limit.
    destruct (Limiter.hit now (Limiter.client_host request) lim)
      as [admitted lim'] eqn:Eh.
    destruct (String.eqb_spec (Limiter.client_host request) client) as [Eq|Hne].
    + destruct (hit_client n lim now Hc (Hnow Eq)) as [Ha Hc'].
      rewrite <- Eq, Eh in Ha, Hc'. cbn [fst snd] in Ha, Hc'. rewrite Eq in Hc'.
      assert (Hstep : forall st' a0,
                 (n < 60 -> exists r, a0 = Limiter.Passed r) ->
                 (60 <= n -> a0 = Limiter.RateLimited Limiter.rate_limit_exceeded_handler) ->
                 nth_error (answers_to client ((now, request, dreq) :: calls)
                              (a0 :: serve calls (lim', st'))) k = Some a ->
                 (n + k < 60 -> exists r, a = Limiter.Passed r) /\
                 (60 <= n + k ->
                  a = Limiter.RateLimited Limiter.rate_limit_exceeded_handler)).
      { intros st' a0 Hlt Hge. cbn [answers_to]. rewrite Eq, String.eqb_refl.
        destruct k as [|k]; cbn [nth_error].
        - intros [= <-]. rewrite Nat.add_0_r. auto.
        - intros Hk. destruct (IH (S n) lim' st' Hc' Hw' k a Hk) as [H1 H2].
          split; intros; [apply H1|apply H2]; lia. }
      destruct admitted.
      * symmetry in Ha. apply Nat.leb_le in Ha. unfold Limiter.amount in Ha.
        destruct (download_media dreq st) as [r st'].
        apply Hstep; [eauto|lia].
      * symmetry in Ha. apply Nat.leb_gt in Ha. unfold Limiter.amount in Ha.
        apply Hstep; [lia|reflexivity].
    + pose proof (hit_other n lim now _ Hne Hc) as Hc'.
      rewrite Eh in Hc'. cbn [snd] in Hc'.
      apply String.eqb_neq in Hne.
      destruct admitted.
      * destruct (download_media dreq st) as [r st'].
        cbn [answers_to]. rewrite Hne. apply IH; assumption.
      * cbn [answers_to]. rewrite Hne. apply IH; assumption.
Qed.

End FixedWindow.

Lemma burst_in_window : Forall (in_window "203.0.113.7" 0) burst.
Proof.
  apply Forall_forall. intros c Hin. unfold burst in Hin.
  apply in_map_iff in Hin as (i & <- & Hi). apply in_seq in Hi.
  intros _. unfold Limiter.expiry. lia.
Qed.

(** C8 (as the code has it).  Of the requests one client sends within one
    minute, counted from a moment at which the limiter holds no live window
    for that client, the first 60 are passed on to the endpoint and every
    later one is answered 429 by the limiter, whatever other clients send in
    between.  The 429 answer carries no retry-after hint. *)
Theorem rate_limit_fixed_window
    (client : string) (t0 : Z) (calls : list call) (lim : Limiter.storage) (st : log) :
  (forall w, dict_get client lim = Some w -> (Limiter.expires w <= t0)%Z) ->
  Forall (in_window client t0) calls ->
  forall k a,
    nth_error (answers_to client calls (serve calls (lim, st))) k = Some a ->
    (k < 60 -> exists r, a = Limiter.Passed r) /\
    (60 <= k ->
     (exists response, a = Limiter.RateLimited response) /\
     Limiter.status a = Some 429%Z /\
     Limiter.retry_after a = None).
Proof.
  intros Hfresh Hw k a Hk.
  destruct (serve_counted client t0 calls 0 lim st Hfresh Hw k a Hk) as [H1 H2].
  split; [exact H1|]. intros Hge. rewrite (H2 Hge). repeat split. eauto.
Qed.

Lemma rate_limit_fixed_window_witness :
  (forall w, dict_get "203.0.113.7" (@nil (string * Limiter.Window)) = Some w ->
             (Limiter.expires w <= 0)%Z) /\
  Forall (in_window "203.0.113.7" 0) burst /\
  exists a,
    nth_error (answers_to "203.0.113.7" burst (serve burst ([], []))) 60 = Some a /\
    (60 < 60 -> exists r, a = Limiter.Passed r) /\
    (60 <= 60 ->
     (exists response, a = Limiter.RateLimited response) /\
     Limiter.status a = Some 429%Z /\
     Limiter.retry_after a = None).
Proof.
  split; [discriminate|]. split; [exact burst_in_window|].
  exists (Limiter.RateLimited Limiter.rate_limit_exceeded_handler).
  split; [vm_compute; reflexivity|].
  apply (rate_limit_fixed_window "203.0.113.7" 0 burst [] []);
    [discriminate | exact burst_in_window | vm_compute; reflexivity].
Defined.

(** C8, counterexample.  The sixty-first of the requests of [burst] is
    refused, and its answer has no retry-after hint. *)
Lemma rate_limit_counterexample :
  ~ (forall client t0 calls lim st,
       (forall w, dict_get client lim = Some w -> (Limiter.expires w <= t0)%Z) ->
       Forall (in_window client t0) calls ->
       forall k a,
         nth_error (answers_to client calls (serve calls (lim, st))) k = Some a ->
         60 <= k ->
         Limiter.status a = Some 429%Z /\
         exists hint, Limiter.retry_after a = Some hint).
Proof.
  intros H.
  destruct (H "203.0.113.7" 0%Z burst [] [] ltac:(discriminate) burst_in_window
              60 (Limiter.RateLimited Limiter.rate_limit_exceeded_handler)
              eq_refl (le_n 60)) as (_ & hint & Hhint).
  discriminate Hhint.
Qed.

(** * Further properties of the code *)

(** ** Substring search *)

Section Contains.

Lemma prefix_app_r n b c : prefix n b = true -> prefix n (b ++ c) = true.
Proof.
  revert n. induction b as [|x b IH]; intros n.
  - destruct n; [now destruct c|discriminate].
  - destruct n as [|y n]; [reflexivity|]. simpl.
    destruct (ascii_dec y x); [apply IH|discriminate].
Qed.

Lemma contains_app_r n b c :
  Str.contains n b = true -> Str.contains n (b ++ c) = true.
Proof.
  induction b as [|x b IH].
  - simpl. rewrite orb_false_r. intros H. destruct n; [|discriminate].
    now destruct c.
  - cbn [Str.contains]. intros H. apply orb_true_iff in H as [H|H].
    + change (String x b ++ c) with (String x (b ++ c)) in *.
      cbn [Str.contains]. apply orb_true_iff. left.
      now apply (prefix_app_r n (String x b) c).
    + change (String x b ++ c) with (String x (b ++ c)).
      cbn [Str.contains]. apply orb_true_iff. right. now apply IH.
Qed.

Lemma contains_app_l n a b :
  Str.contains n b = true -> Str.contains n (a ++ b) = true.
Proof.
  intros H. induction a as [|x a IH]; [exact H|].
  change (String x a ++ b) with (String x (a ++ b)).
  cbn [Str.contains]. apply orb_true_iff. now right.
Qed.

Lemma prefix_contains n s : prefix n s = true -> Str.contains n s = true.
Proof. intros H. destruct s; simpl in *; rewrite H; reflexivity. Qed.

Lemma prefix_app_inv a b s :
  prefix (a ++ b) s = true -> exists s', s = a ++ s' /\ prefix b s' = true.
Proof.
  revert s. induction a as [|x a IH]; intros s H.
  - exists s. auto.
  - destruct s as [|y s]; [discriminate|]. simpl in H.
    destruct (ascii_dec x y) as [->|]; [|discriminate].
    destruct (IH _ H) as (s' & -> & Hb). exists s'. auto.
Qed.

(** A text that holds [a ++ b] holds [b]. *)
Lemma contains_suffix a b s :
  Str.contains (a ++ b) s = true -> Str.contains b s = true.
Proof.
  induction s as [|x s IH]; intros H; cbn [Str.contains] in H.
  - rewrite orb_false_r in H. apply prefix_app_inv in H as (s' & E & Hb).
    rewrite E. apply contains_app_l, prefix_contains, Hb.
  - apply orb_true_iff in H as [H|H].
    + apply prefix_app_inv in H as (s' & E & Hb). rewrite E.
      apply contains_app_l, prefix_contains, Hb.
    + cbn [Str.contains]. apply orb_true_iff. right. now apply IH.
Qed.

Lemma re_search_embedded pattern pre core post :
  re_search pattern core = true -> re_search pattern (pre ++ core ++ post) = true.
Proof.
  unfold re_search. rewrite !existsb_exists.
  intros (lit & Hin & Hc). exists lit. split; [exact Hin|].
  now apply contains_app_l, contains_app_r.
Qed.

Lemma lower_char_idem c : Str.lower_char (Str.lower_char c) = Str.lower_char c.
Proof. destruct c as [[] [] [] [] [] [] [] []]; reflexivity. Qed.

Lemma lower_idem s : Str.lower (Str.lower s) = Str.lower s.
Proof.
  induction s as [|c s IH]; simpl; [reflexivity|].
  now rewrite lower_char_idem, IH.
Qed.

End Contains.

(** ** More on platform detection *)

(** X1.  A URL [scheme://netloc tail] whose netloc, ASCII text without
    square brackets, holds none of the platform patterns is refused with
    [ValueError], the message quoting the whole URL, and the log is left
    alone.  Only the netloc counts: a supported domain that shows up in the
    path, the query or the fragment does not make the URL supported. *)
Theorem detect_platform_unmatched_netloc (sch nl tl : string) (st : log) :
  Url.is_scheme sch = true -> Url.is_netloc nl = true -> Url.is_tail tl = true ->
  (forall platform pattern,
     In (platform, pattern) PLATFORM_PATTERNS -> re_search pattern nl = false) ->
  detect_platform (sch ++ "://" ++ nl ++ tl) st =
    (Raise (ValueError ("Unsupported platform for URL: " ++ sch ++ "://" ++ nl ++ tl)), st).
Proof.
  intros Hs Hn Ht Hno.
  rewrite detect_platform_eq, (urlparse_netloc _ _ _ Hs Hn Ht). cbn [Url.netloc].
  assert (E : first_match PLATFORM_PATTERNS nl = None).
  { apply first_match_none, Forall_forall. intros [p r] Hin. simpl. eauto. }
  now rewrite E.
Qed.

Lemma no_pattern_in_example_com platform pattern :
  In (platform, pattern) PLATFORM_PATTERNS -> re_search pattern "example.com" = false.
Proof.
  simpl. intros H.
  repeat (destruct H as [H|H]; [injection H as <- <-; reflexivity|]).
  contradiction.
Qed.

Lemma detect_platform_unmatched_netloc_witness :
  Url.is_scheme "https" = true /\
  Url.is_netloc "example.com" = true /\
  Url.is_tail "/instagram.com/reel/1?u=youtube.com" = true /\
  detect_platform ("https" ++ "://" ++ "example.com" ++ "/instagram.com/reel/1?u=youtube.com") [] =
    (Raise (ValueError ("Unsupported platform for URL: " ++ "https" ++ "://" ++ "example.com"
                        ++ "/instagram.com/reel/1?u=youtube.com")), []).
Proof.
  repeat (split; [reflexivity|]).
  apply (detect_platform_unmatched_netloc "https" "example.com"
           "/instagram.com/reel/1?u=youtube.com" []);
    first [reflexivity | exact no_pattern_in_example_com].
Defined.

(** X2.  Detection searches the whole netloc for the pattern: whatever
    ASCII text without square brackets surrounds a supported domain there (a
    subdomain, user information, a port) the URL is accepted as one of the
    supported platforms. *)
Theorem detect_platform_embedded_domain
    (sch pre core post tl platform : string) (pattern : regex) (st : log) :
  Url.is_scheme sch = true ->
  Url.is_netloc (pre ++ core ++ post) = true ->
  Url.is_tail tl = true ->
  In (platform, pattern) PLATFORM_PATTERNS ->
  re_search pattern core = true ->
  exists winner pattern',
    detect_platform (sch ++ "://" ++ (pre ++ core ++ post) ++ tl) st = (Ok winner, st) /\
    In (winner, pattern') PLATFORM_PATTERNS /\
    re_search pattern' (pre ++ core ++ post) = true.
Proof.
  intros Hs Hn Ht Hin Hm.
  pose proof (re_search_embedded pattern pre core post Hm) as Hm'.
  destruct (first_match_found _ _ _ _ Hin Hm') as (winner & E).
  rewrite detect_platform_eq, (urlparse_netloc _ _ _ Hs Hn Ht). cbn [Url.netloc].
  rewrite E. apply first_match_in in E as (r & Hr & Hmr). eauto.
Qed.

Lemma detect_platform_embedded_domain_witness :
  Url.is_scheme "https" = true /\
  Url.is_netloc ("user@m." ++ "facebook.com" ++ ":8443") = true /\
  Url.is_tail "/watch" = true /\
  In ("facebook", ["facebook.com"; "fb.com"; "fb.watch"]) PLATFORM_PATTERNS /\
  re_search ["facebook.com"; "fb.com"; "fb.watch"] "facebook.com" = true /\
  exists winner pattern',
    detect_platform ("https" ++ "://" ++ ("user@m." ++ "facebook.com" ++ ":8443") ++ "/watch") []
      = (Ok winner, []) /\
    In (winner, pattern') PLATFORM_PATTERNS /\
    re_search pattern' ("user@m." ++ "facebook.com" ++ ":8443") = true.
Proof.
  split; [reflexivity|]. split; [reflexivity|]. split; [reflexivity|].
  split; [right; right; left; reflexivity|]. split; [reflexivity|].
  apply (detect_platform_embedded_domain "https" "user@m." "facebook.com" ":8443" "/watch"
           "facebook" ["facebook.com"; "fb.com"; "fb.watch"] []);
    first [reflexivity | right; right; left; reflexivity].
Defined.

(** X3.  The second alternative of the TikTok pattern is dead: a text holds
    [tiktok.com] or [vm.tiktok.com] exactly when it holds [tiktok.com]. *)
Theorem tiktok_pattern_redundant :
  exists pattern,
    dict_get "tiktok" PLATFORM_PATTERNS = Some pattern /\
    forall s, re_search pattern s = Str.contains "tiktok.com" s.
Proof.
  eexists. split; [reflexivity|]. intros s.
  unfold re_search. cbn [existsb]. rewrite orb_false_r.
  destruct (Str.contains "tiktok.com" s) eqn:E; [reflexivity|]. cbn [orb].
  destruct (Str.contains "vm.tiktok.com" s) eqn:E'; [|reflexivity].
  apply (contains_suffix "vm." "tiktok.com") in E'. congruence.
Qed.

(** ** More on the endpoint *)

Section Endpoint.

Lemma dict_get_handler_key platform handler :
  dict_get platform PLATFORM_HANDLERS = Some handler ->
  (platform = "instagram" /\ handler = instagram_handler) \/
  (platform = "tiktok" /\ handler = tiktok_handler) \/
  (platform = "facebook" /\ handler = facebook_handler) \/
  (platform = "youtube" /\ handler = youtube_handler).
Proof.
  unfold PLATFORM_HANDLERS, dict_get.
  destruct (String.eqb_spec platform "instagram") as [->|_]; [intros [= <-]; tauto|].
  destruct (String.eqb_spec platform "tiktok") as [->|_]; [intros [= <-]; tauto|].
  destruct (String.eqb_spec platform "facebook") as [->|_]; [intros [= <-]; tauto|].
  destruct (String.eqb_spec platform "youtube") as [->|_]; [intros [= <-]; tauto|].
  discriminate.
Qed.

(** Every registered handler answers, after one INFO line. *)
Lemma handler_runs platform handler u f st :
  dict_get platform PLATFORM_HANDLERS = Some handler ->
  exists d name,
    handler u f st = (Ok d, (st ++ [(INFO, Lit ("Processing " ++ name ++ " URL: " ++ u))])%list) /\
    dict_get "platform" d = Some (VStr name).
Proof.
  intros H.
  apply dict_get_handler_key in H as [[_ ->] | [[_ ->] | [[_ ->] | [_ ->]]]];
    eexists;
    [ exists "Instagram" | exists "TikTok" | exists "Facebook" | exists "YouTube" ];
    (split; reflexivity).
Qed.

(** A successful answer is the answer of the handler of the detected
    platform, run on the lowercased format. *)
Lemma download_media_success req st d :
  fst (download_media req st) = Ok d ->
  exists fmt platform handler,
    format req = Some fmt /\
    Str.mem (Str.lower fmt) ["mp4"; "mp3"] = true /\
    detect_platform (url req) st = (Ok platform, st) /\
    dict_get platform PLATFORM_HANDLERS = Some handler /\
    download_media req st = handler (url req) (Str.lower fmt) st /\
    fst (handler (url req) (Str.lower fmt) st) = Ok d.
Proof.
  rewrite download_media_eq.
  destruct (download_media_body_cases req st)
    as [(e & -> & _)|(fmt & p & h & Hf & Hm & Hd & Hh & ->)]; [discriminate|].
  destruct (handler_runs p h (url req) (Str.lower fmt) st Hh) as (d' & name & E & _).
  rewrite E. cbn [fst]. intros [= <-].
  exists fmt, p, h. rewrite E. auto 10.
Qed.

(** Conversely, a valid format and a detected platform give an answer. *)
Lemma download_media_runs req st fmt platform :
  format req = Some fmt ->
  Str.mem (Str.lower fmt) ["mp4"; "mp3"] = true ->
  fst (detect_platform (url req) st) = Ok platform ->
  exists d, fst (download_media req st) = Ok d.
Proof.
  intros Hf Hm Hd.
  rewrite download_media_eq, download_media_body_eq, Hf, Hm. cbn [negb].
  destruct (detect_platform (url req) st) as [[p|e] st'] eqn:E; [|discriminate].
  pose proof (detected_platform_named _ _ _ _ E) as Hp. simpl in Hp.
  assert (exists h, dict_get p PLATFORM_HANDLERS = Some h) as (h & Hh).
  { repeat (destruct Hp as [<-|Hp]; [eexists; reflexivity|]). contradiction. }
  rewrite Hh.
  destruct (handler_runs p h (url req) (Str.lower fmt) st' Hh) as (d & name & E' & _).
  rewrite E'. cbn. eauto.
Qed.

End Endpoint.

(** X4.  The endpoint answers 200 or 500 and nothing else.  It answers 200
    exactly when the format, lowercased, is mp4 or mp3 and the platform of
    the URL is detected. *)
Theorem download_media_status (req : DownloadRequest) (st : log) :
  (http_status (fst (download_media req st)) = Some 200%Z \/
   http_status (fst (download_media req st)) = Some 500%Z) /\
  (http_status (fst (download_media req st)) = Some 200%Z <->
   exists fmt platform,
     format req = Some fmt /\
     Str.mem (Str.lower fmt) ["mp4"; "mp3"] = true /\
     fst (detect_platform (url req) st) = Ok platform).
Proof.
  split.
  - rewrite download_media_eq.
    destruct (download_media_body req st) as [[d|e] st']; cbn; auto.
  - split.
    + destruct (fst (download_media req st)) as [d|e] eqn:E.
      * intros _. apply download_media_success in E
          as (fmt & p & h & Hf & Hm & Hd & _).
        exists fmt, p. rewrite Hd. auto.
      * rewrite download_media_eq in E.
        destruct (download_media_body req st) as [[d'|e'] st']; cbn in E;
          [discriminate|]. injection E as <-. cbn. discriminate.
    + intros (fmt & p & Hf & Hm & Hd).
      destruct (download_media_runs req st fmt p Hf Hm Hd) as (d & ->).
      reflexivity.
Qed.

(** X5.  Every request adds exactly one line to the log and keeps what was
    there: a successful one the INFO line naming the platform of its answer
    and the URL, a failed one the ERROR line carrying the exception that the
    status 500 wraps. *)
Theorem download_media_logs_once (req : DownloadRequest) (st : log) :
  match fst (download_media req st) with
  | Ok d =>
      exists name,
        dict_get "platform" d = Some (VStr name) /\
        snd (download_media req st)
          = (st ++ [(INFO, Lit ("Processing " ++ name ++ " URL: " ++ url req))])%list
  | Raise e =>
      exists cause,
        e = HTTPException 500 (ErrorProcessingRequest cause) /\
        snd (download_media req st) = (st ++ [(ERROR, ErrorProcessingRequest cause)])%list
  end.
Proof.
  destruct (fst (download_media req st)) as [d|e] eqn:E.
  - apply download_media_success in E as (fmt & p & h & _ & _ & _ & Hh & -> & E).
    destruct (handler_runs p h (url req) (Str.lower fmt) st Hh) as (d' & name & E' & Hn).
    rewrite E' in *. cbn in E. injection E as ->. eauto.
  - rewrite download_media_eq in *.
    destruct (download_media_body_cases req st)
      as [(c & Hb & _)|(fmt & p & h & _ & _ & _ & Hh & Hb)]; rewrite Hb in *.
    + cbn in E. injection E as <-. eauto.
    + destruct (handler_runs p h (url req) (Str.lower fmt) st Hh) as (d' & name & E' & _).
      rewrite E' in E. discriminate.
Qed.

(** X6.  The format is read case-insensitively: a request and the same
    request with its format lowercased get the same answer and leave the
    same log. *)
Theorem format_case_insensitive (u fmt : string) (st : log) :
  download_media {| url := u; format := Some fmt |} st
    = download_media {| url := u; format := Some (Str.lower fmt) |} st.
Proof.
  rewrite !download_media_eq, !download_media_body_eq. cbn [format url].
  now rewrite lower_idem.
Qed.

(** X7.  The format is checked before the URL is looked at: with a null
    format, or one that is neither mp4 nor mp3, the answer and the log are
    the same whatever the URL. *)
Theorem invalid_format_ignores_url (u1 u2 : string) (fmt : option string) (st : log) :
  match fmt with
  | None => True
  | Some f => Str.mem (Str.lower f) ["mp4"; "mp3"] = false
  end ->
  download_media {| url := u1; format := fmt |} st
    = download_media {| url := u2; format := fmt |} st /\
  http_status (fst (download_media {| url := u1; format := fmt |} st)) = Some 500%Z.
Proof.
  intros H. rewrite !download_media_eq, !download_media_body_eq. cbn [format url].
  destruct fmt as [f|]; [rewrite H|]; split; reflexivity.
Qed.

Lemma invalid_format_ignores_url_witness :
  Str.mem (Str.lower "WebM") ["mp4"; "mp3"] = false /\
  download_media {| url := "https://youtu.be/abc"; format := Some "WebM" |} []
    = download_media {| url := "https://example.com/"; format := Some "WebM" |} [] /\
  http_status (fst (download_media {| url := "https://youtu.be/abc"; format := Some "WebM" |} []))
    = Some 500%Z.
Proof.
  split; [reflexivity|].
  apply (invalid_format_ignores_url "https://youtu.be/abc" "https://example.com/"
           (Some "WebM") []).
  reflexivity.
Defined.

(** ** The answers *)

Ltac answer_cases H :=
  let fmt := fresh "fmt" in
  let p := fresh "p" in
  let h := fresh "h" in
  let Hf := fresh "Hf" in
  let Hm := fresh "Hm" in
  let Hd := fresh "Hd" in
  let Hh := fresh "Hh" in
  let E := fresh "E" in
  apply download_media_success in H as (fmt & p & h & Hf & Hm & Hd & Hh & _ & E);
  apply dict_get_handler_key in Hh as [[-> ->] | [[-> ->] | [[-> ->] | [-> ->]]]];
  cbv [instagram_handler tiktok_handler facebook_handler youtube_handler
       instagram_content_type facebook_content_type youtube_content_type
       bind logger_info ret fst] in E;
  injection E as <-;
  rewrite Hd; exists fmt.

Lemma append_assoc3 (a b c : string) : (a ++ b) ++ c = a ++ b ++ c.
Proof. induction a as [|x a IH]; simpl; [reflexivity|now rewrite IH]. Qed.

(** X8.  A successful answer is about the detected platform: its [platform]
    field is the platform's name, equal to the detected key up to case, its
    thumbnail and download URL lie under that key, and the download URL ends
    with a dot and the lowercased format of the request. *)
Theorem answer_names_detected_platform (req : DownloadRequest) (st : log) (d : dict) :
  fst (download_media req st) = Ok d ->
  exists fmt platform name stem,
    format req = Some fmt /\
    fst (detect_platform (url req) st) = Ok platform /\
    dict_get "status" d = Some (VStr "success") /\
    dict_get "platform" d = Some (VStr name) /\
    Str.lower name = platform /\
    dict_get "thumbnail" d
      = Some (VStr ("https://api.example.com/thumbnails/" ++ platform ++ "_thumbnail.jpg")) /\
    dict_get "download_url" d
      = Some (VStr ("https://api.example.com/downloads/" ++ platform ++ "/" ++ stem
                    ++ "." ++ Str.lower fmt)).
Proof.
  intros H. answer_cases H.
  - exists "instagram", "Instagram".
    eexists (_ ++ "_processed"). repeat split; try assumption.
    cbn [dict_get String.eqb Ascii.eqb Bool.eqb]. rewrite append_assoc3. reflexivity.
  - exists "tiktok", "TikTok", "video_nowatermark". repeat split; assumption.
  - exists "facebook", "Facebook". eexists. repeat split; assumption.
  - exists "youtube", "YouTube". eexists. repeat split; assumption.
Qed.

Lemma answer_names_detected_platform_witness :
  exists d,
    fst (download_media {| url := "https://www.facebook.com/reel/77"; format := Some "MP3" |} [])
      = Ok d /\
    exists fmt platform name stem,
      Some "MP3" = Some fmt /\
      fst (detect_platform "https://www.facebook.com/reel/77" []) = Ok platform /\
      dict_get "status" d = Some (VStr "success") /\
      dict_get "platform" d = Some (VStr name) /\
      Str.lower name = platform /\
      dict_get "thumbnail" d
        = Some (VStr ("https://api.example.com/thumbnails/" ++ platform ++ "_thumbnail.jpg")) /\
      dict_get "download_url" d
        = Some (VStr ("https://api.example.com/downloads/" ++ platform ++ "/" ++ stem
                      ++ "." ++ Str.lower fmt)).
Proof.
  eexists. split; [reflexivity|].
  exact (answer_names_detected_platform
           {| url := "https://www.facebook.com/reel/77"; format := Some "MP3" |} [] _ eq_refl).
Defined.

(** X9.  In a successful answer the media type is video or image, and the
    duration is null exactly when it is image.  Image answers are those for
    Instagram URLs that hold [p/] but not [reel] and for Facebook URLs that
    hold neither [reel] nor [story]. *)
Theorem image_answers (req : DownloadRequest) (st : log) (d : dict) :
  fst (download_media req st) = Ok d ->
  (dict_get "media_type" d = Some (VStr "image") \/
   dict_get "media_type" d = Some (VStr "video")) /\
  (dict_get "duration" d = Some VNone <-> dict_get "media_type" d = Some (VStr "image")) /\
  (dict_get "media_type" d = Some (VStr "image") <->
   Str.contains "reel" (url req) = false /\
   ((fst (detect_platform (url req) st) = Ok "instagram" /\
     Str.contains "p/" (url req) = true) \/
    (fst (detect_platform (url req) st) = Ok "facebook" /\
     Str.contains "story" (url req) = false))).
Proof.
  intros H.
  apply download_media_success in H as (fmt & p & h & Hf & Hm & Hd & Hh & _ & E).
  apply dict_get_handler_key in Hh as [[-> ->] | [[-> ->] | [[-> ->] | [-> ->]]]];
    cbv [instagram_handler tiktok_handler facebook_handler youtube_handler
         instagram_content_type facebook_content_type youtube_content_type
         bind logger_info ret fst] in E;
    injection E as <-; rewrite Hd; cbn [fst];
    repeat match goal with
           | |- context [Str.contains ?k (url req)] =>
               destruct (Str.contains k (url req))
           end;
    cbn; intuition congruence.
Qed.

Lemma image_answers_witness :
  let req := {| url := "https://www.instagram.com/p/Cx1/"; format := Some "mp4" |} in
  exists d,
    fst (download_media req []) = Ok d /\
    (dict_get "media_type" d = Some (VStr "image") \/
     dict_get "media_type" d = Some (VStr "video")) /\
    (dict_get "duration" d = Some VNone <-> dict_get "media_type" d = Some (VStr "image")) /\
    (dict_get "media_type" d = Some (VStr "image") <->
     Str.contains "reel" (url req) = false /\
     ((fst (detect_platform (url req) []) = Ok "instagram" /\
       Str.contains "p/" (url req) = true) \/
      (fst (detect_platform (url req) []) = Ok "facebook" /\
       Str.contains "story" (url req) = false))).
Proof.
  intros req. eexists. split; [reflexivity|].
  exact (image_answers req [] _ eq_refl).
Defined.

(** X10.  Only TikTok answers carry [audio_url]: the fixed audio link when
    the lowercased format is mp3 and null otherwise.  The answers of the
    other platforms have no such field, mp3 or not. *)
Theorem audio_url_only_for_tiktok (req : DownloadRequest) (st : log) (d : dict) :
  fst (download_media req st) = Ok d ->
  exists fmt platform,
    format req = Some fmt /\
    fst (detect_platform (url req) st) = Ok platform /\
    dict_get "audio_url" d =
      if String.eqb platform "tiktok"
      then Some (if String.eqb (Str.lower fmt) "mp3"
                 then VStr "https://api.example.com/downloads/tiktok/audio.mp3"
                 else VNone)
      else None.
Proof.
  intros H. answer_cases H; eexists; repeat split; assumption || reflexivity.
Qed.

Lemma audio_url_only_for_tiktok_witness :
  exists d,
    fst (download_media {| url := "https://vm.tiktok.com/ZM1/"; format := Some "Mp3" |} [])
      = Ok d /\
    exists fmt platform,
      Some "Mp3" = Some fmt /\
      fst (detect_platform "https://vm.tiktok.com/ZM1/" []) = Ok platform /\
      dict_get "audio_url" d =
        if String.eqb platform "tiktok"
        then Some (if String.eqb (Str.lower fmt) "mp3"
                   then VStr "https://api.example.com/downloads/tiktok/audio.mp3"
                   else VNone)
        else None.
Proof.
  eexists. split; [reflexivity|].
  exact (audio_url_only_for_tiktok
           {| url := "https://vm.tiktok.com/ZM1/"; format := Some "Mp3" |} [] _ eq_refl).
Defined.

(** X11.  For every URL [scheme://netloc tail] whose netloc, ASCII text
    without square brackets, holds a supported domain, and for the format mp4
    or mp3 in any letter case, [download_media] answers 200 with a success
    body, whatever the path is. *)
Theorem supported_url_is_answered
    (sch nl tl fmt platform : string) (pattern : regex) (st : log) :
  Url.is_scheme sch = true -> Url.is_netloc nl = true -> Url.is_tail tl = true ->
  In (platform, pattern) PLATFORM_PATTERNS ->
  re_search pattern nl = true ->
  Str.mem (Str.lower fmt) ["mp4"; "mp3"] = true ->
  exists d,
    fst (download_media {| url := sch ++ "://" ++ nl ++ tl; format := Some fmt |} st) = Ok d /\
    http_status (fst (download_media {| url := sch ++ "://" ++ nl ++ tl;
                                        format := Some fmt |} st)) = Some 200%Z /\
    dict_get "status" d = Some (VStr "success").
Proof.
  intros Hs Hn Ht Hin Hm Hf.
  destruct (first_match_found nl _ _ _ Hin Hm) as (winner & E).
  assert (Hd : fst (detect_platform (sch ++ "://" ++ nl ++ tl) st) = Ok winner).
  { rewrite detect_platform_eq, (urlparse_netloc _ _ _ Hs Hn Ht).
    cbn [Url.netloc]. now rewrite E. }
  destruct (download_media_runs
              {| url := sch ++ "://" ++ nl ++ tl; format := Some fmt |} st fmt winner
              eq_refl Hf Hd) as (d & Hok).
  exists d. rewrite Hok. repeat split.
  apply download_media_success in Hok as (f & p & h & _ & _ & _ & Hh & _ & Eh).
  apply dict_get_handler_key in Hh as [[_ ->] | [[_ ->] | [[_ ->] | [_ ->]]]];
    cbv [instagram_handler tiktok_handler facebook_handler youtube_handler
         bind logger_info ret fst] in Eh;
    injection Eh as <-; reflexivity.
Qed.

Lemma supported_url_is_answered_witness :
  Url.is_scheme "http" = true /\
  Url.is_netloc "youtu.be" = true /\
  Url.is_tail "/dQw4?t=42#top" = true /\
  In ("youtube", ["youtube.com"; "youtu.be"]) PLATFORM_PATTERNS /\
  re_search ["youtube.com"; "youtu.be"] "youtu.be" = true /\
  Str.mem (Str.lower "MP4") ["mp4"; "mp3"] = true /\
  exists d,
    fst (download_media {| url := "http" ++ "://" ++ "youtu.be" ++ "/dQw4?t=42#top";
                           format := Some "MP4" |} []) = Ok d /\
    http_status (fst (download_media {| url := "http" ++ "://" ++ "youtu.be" ++ "/dQw4?t=42#top";
                                        format := Some "MP4" |} [])) = Some 200%Z /\
    dict_get "status" d = Some (VStr "success").
Proof.
  split; [reflexivity|]. split; [reflexivity|]. split; [reflexivity|].
  split; [do 3 right; left; reflexivity|]. split; [reflexivity|]. split; [reflexivity|].
  apply (supported_url_is_answered "http" "youtu.be" "/dQw4?t=42#top" "MP4"
           "youtube" ["youtube.com"; "youtu.be"] []);
    first [reflexivity | do 3 right; left; reflexivity].
Defined.

(** X12.  Title and duration of a successful answer, by platform and by
    the markers found anywhere in the URL.  Instagram: [reel] gives a Reel,
    else [p/] gives a Post without duration, else a Story, reels and stories
    lasting 15s.  TikTok: always a Video of 30s.  Facebook: [reel] gives a
    Reel, else [story] gives a Story, both of 60s, else a Post without
    duration.  YouTube: [shorts] gives a Short of 30s, else a Video of 5m. *)
Theorem content_kind_table (req : DownloadRequest) (st : log) (d : dict) :
  fst (download_media req st) = Ok d ->
  let has k := Str.contains k (url req) in
  let detected p := fst (detect_platform (url req) st) = Ok p in
  let answer t v := dict_get "title" d = Some (VStr t) /\ dict_get "duration" d = Some v in
  (detected "instagram" /\
   ((has "reel" = true /\ answer "Instagram Reel" (VStr "15s")) \/
    (has "reel" = false /\ has "p/" = true /\ answer "Instagram Post" VNone) \/
    (has "reel" = false /\ has "p/" = false /\ answer "Instagram Story" (VStr "15s")))) \/
  (detected "tiktok" /\ answer "TikTok Video" (VStr "30s")) \/
  (detected "facebook" /\
   ((has "reel" = true /\ answer "Facebook Reel" (VStr "60s")) \/
    (has "reel" = false /\ has "story" = true /\ answer "Facebook Story" (VStr "60s")) \/
    (has "reel" = false /\ has "story" = false /\ answer "Facebook Post" VNone))) \/
  (detected "youtube" /\
   ((has "shorts" = true /\ answer "YouTube Short" (VStr "30s")) \/
    (has "shorts" = false /\ answer "YouTube Video" (VStr "5m")))).
Proof.
  intros H has detected answer. subst has detected answer. cbv beta.
  apply download_media_success in H as (fmt & p & h & Hf & Hm & Hd & Hh & _ & E).
  apply dict_get_handler_key in Hh as [[-> ->] | [[-> ->] | [[-> ->] | [-> ->]]]];
    cbv [instagram_handler tiktok_handler facebook_handler youtube_handler
         instagram_content_type facebook_content_type youtube_content_type
         bind logger_info ret fst] in E;
    injection E as <-; rewrite Hd; cbn [fst];
    repeat match goal with
           | |- context [Str.contains ?k (url req)] =>
               destruct (Str.contains k (url req))
           end;
    cbn; intuition congruence.
Qed.

Lemma content_kind_table_witness :
  let req := {| url := "https://www.youtube.com/shorts/abc"; format := Some "mp4" |} in
  exists d,
    fst (download_media req []) = Ok d /\
    dict_get "title" d = Some (VStr "YouTube Short") /\
    dict_get "duration" d = Some (VStr "30s").
Proof.
  intros req. eexists. split; [reflexivity|].
  destruct (content_kind_table req [] _ eq_refl)
    as [[D _] | [[D _] | [[D _] | [_ [[_ A] | [C _]]]]]];
    try discriminate D; [exact A | discriminate C].
Defined.
